(** * GranStocks market-data core: a shallow embedding in Rocq

    This development models the server side of GranStocks
    (src/server/src/services): the provider adapters
    [AlphaVantageProvider] and [BinanceProvider], the router [MarketData],
    the history store [PriceHistoryService] and the screener-run admin
    route.  The asynchronous TypeScript code is written as programs of a
    small free monad [prog] whose effects are the awaited calls of the
    source (cache store, [fetch], the secondary provider, the Prisma
    tables, the in-process hot cache); [run] interprets a program against
    an explicit [World].  JavaScript values are modelled by [jsval]. *)

From Stdlib Require Import String Ascii ZArith QArith Qround List Bool Lia.
From stdpp Require Import base gmap strings pretty sorting.

Set Warnings "-register-all".
Open Scope string_scope.
Open Scope Z_scope.

(* ================================================================== *)
(** ** JavaScript values *)

(** A JS number: [NaN] or a finite rational (floating point rounding is
    not modelled; no claim depends on it). *)
Inductive number :=
| NaN
| Fin (q : Q).

(** A JS value.  [JFun name] stands for a function object (only the
    builtin methods reached through prototype lookups appear). *)
Inductive jsval :=
| JUndef
| JNull
| JBool (b : bool)
| JNum (n : number)
| JStr (s : string)
| JArr (xs : list jsval)
| JObj (fields : list (string * jsval))
| JFun (name : string).

(** Outcome of a computation that may throw: the error is the message
    of the thrown [Error] (a [TypeError], [SyntaxError], ...). *)
Inductive result (A : Type) :=
| Ok (a : A)
| Err (e : string).
Arguments Ok {A} a.
Arguments Err {A} e.

(** Truthiness, as used by [if (x)], [!x] and [a || b]. *)
Definition js_truthy (v : jsval) : bool :=
  match v with
  | JUndef | JNull => false
  | JBool b => b
  | JNum NaN => false
  | JNum (Fin q) => negb (Qeq_bool q 0)
  | JStr s => negb (String.eqb s "")
  | JArr _ | JObj _ | JFun _ => true
  end.

Fixpoint assoc {V} (k : string) (l : list (string * V)) : option V :=
  match l with
  | [] => None
  | (k', v) :: l' => if String.eqb k k' then Some v else assoc k l'
  end.

(** Members inherited from [Object.prototype] by every object. *)
Definition object_prototype_members : list string :=
  ["constructor"; "toString"; "toLocaleString"; "valueOf";
   "hasOwnProperty"; "isPrototypeOf"; "propertyIsEnumerable";
   "__defineGetter__"; "__defineSetter__"; "__lookupGetter__";
   "__lookupSetter__"].

(** Property lookup on [Object.prototype]: its methods are functions,
    [__proto__] is the prototype object itself (an object with no own
    enumerable members), anything else is [undefined]. *)
Definition object_proto_get (k : string) : jsval :=
  if String.eqb k "__proto__" then JObj []
  else if existsb (String.eqb k) object_prototype_members then JFun k
  else JUndef.

Definition array_prototype_members : list string :=
  ["map"; "filter"; "find"; "includes"; "join"; "push"; "sort"; "slice"].

Definition string_prototype_members : list string :=
  ["replace"; "split"; "includes"; "toLowerCase"; "toUpperCase";
   "slice"; "trim"].

(** [o[k]] / [o.k]: own property first, then the prototype chain;
    reading a property of [null] or [undefined] throws a TypeError. *)
Definition js_get (o : jsval) (k : string) : result jsval :=
  match o with
  | JUndef | JNull => Err "TypeError: Cannot read properties"
  | JObj fs =>
      match assoc k fs with
      | Some v => Ok v
      | None => Ok (object_proto_get k)
      end
  | JArr xs =>
      if String.eqb k "length" then Ok (JNum (Fin (inject_Z (Z.of_nat (length xs)))))
      else match List.find (fun i => String.eqb (pretty i) k) (seq 0 (length xs)) with
           | Some i => Ok (nth i xs JUndef)
           | None =>
               if existsb (String.eqb k) array_prototype_members then Ok (JFun k)
               else Ok (object_proto_get k)
           end
  | JStr s =>
      if String.eqb k "length" then Ok (JNum (Fin (inject_Z (Z.of_nat (String.length s)))))
      else if existsb (String.eqb k) string_prototype_members then Ok (JFun k)
      else Ok (object_proto_get k)
  | JBool _ | JNum _ | JFun _ => Ok (object_proto_get k)
  end.

(** [o.k = v] in strict-mode code (the TypeScript output is strict):
    on an object the own property is replaced in place or appended;
    on a primitive the assignment throws. *)
Fixpoint set_field (k : string) (v : jsval) (fs : list (string * jsval))
  : list (string * jsval) :=
  match fs with
  | [] => [(k, v)]
  | (k', v') :: fs' =>
      if String.eqb k k' then (k', v) :: fs' else (k', v') :: set_field k v fs'
  end.

Definition js_set (o : jsval) (k : string) (v : jsval) : result jsval :=
  match o with
  | JObj fs => Ok (JObj (set_field k v fs))
  | JArr _ | JFun _ => Ok o
  | _ => Err "TypeError: Cannot create property on primitive"
  end.

Definition js_str_eq (v : jsval) (s : string) : bool :=
  match v with JStr s' => String.eqb s' s | _ => false end.

Definition js_is_null (v : jsval) : bool :=
  match v with JNull => true | _ => false end.

(* ================================================================== *)
(** ** Numbers, dates and JSON text *)

Definition is_digit (c : ascii) : bool :=
  let n := nat_of_ascii c in ((48 <=? n) && (n <=? 57))%nat.

Fixpoint digits_prefix (s : string) : list Z * string :=
  match s with
  | String c r =>
      if is_digit c then
        let '(ds, rest) := digits_prefix r in
        ((Z.of_nat (nat_of_ascii c) - 48) :: ds, rest)
      else ([], s)
  | EmptyString => ([], EmptyString)
  end.

Definition digits_value (ds : list Z) : Z := fold_left (fun acc d => acc * 10 + d) ds 0.

Fixpoint skip_spaces (s : string) : string :=
  match s with
  | String " " r => skip_spaces r
  | _ => s
  end.

(** [parseFloat] on a string: leading blanks, an optional sign, digits and
    an optional fraction ([Infinity] and exponents are not modelled).
    No digit at all gives [NaN]. *)
Definition parse_float_string (s0 : string) : number :=
  let s1 := skip_spaces s0 in
  let '(neg, s2) := match s1 with
                    | String "-" r => (true, r)
                    | String "+" r => (false, r)
                    | _ => (false, s1)
                    end in
  let '(ip, s3) := digits_prefix s2 in
  let fp := match s3 with
            | String "." r => fst (digits_prefix r)
            | _ => []
            end in
  match ip, fp with
  | [], [] => NaN
  | _, _ =>
      let mag := (inject_Z (digits_value ip)
                  + Qmake (digits_value fp) (Z.to_pos (10 ^ Z.of_nat (length fp))))%Q in
      Fin (if neg then (- mag)%Q else mag)
  end.

(** [parseFloat(v)]: a number is returned unchanged, a string is parsed;
    [undefined], [null], booleans and objects give [NaN]. *)
Definition parseFloat (v : jsval) : number :=
  match v with
  | JNum n => n
  | JStr s => parse_float_string s
  | _ => NaN
  end.

(** [ToNumber] as used by [*] and [/]. *)
Definition to_number (v : jsval) : number :=
  match v with
  | JNum n => n
  | JNull => Fin 0
  | JBool b => Fin (if b then 1 else 0)
  | JStr s => parse_float_string s
  | _ => NaN
  end.

Definition num_mul (a b : number) : number :=
  match a, b with Fin x, Fin y => Fin (x * y) | _, _ => NaN end.

Definition num_div (a b : number) : number :=
  match a, b with
  | Fin x, Fin y => if Qeq_bool y 0 then NaN else Fin (x / y)
  | _, _ => NaN
  end.

(** [Math.floor]. *)
Definition math_floor (n : number) : number :=
  match n with Fin q => Fin (inject_Z (Qfloor q)) | NaN => NaN end.

(** Days since 1970-01-01 of a proleptic Gregorian civil date. *)
Definition days_from_civil (y m d : Z) : Z :=
  let y' := if m <=? 2 then y - 1 else y in
  let era := y' / 400 in
  let yoe := y' - era * 400 in
  let mp := if m >? 2 then m - 3 else m + 9 in
  let doy := (153 * mp + 2) / 5 + d - 1 in
  let doe := yoe * 365 + yoe / 4 - yoe / 100 + doy in
  era * 146097 + doe - 719468.

Definition is_leap (y : Z) : bool :=
  (Z.eqb (y mod 4) 0 && negb (Z.eqb (y mod 100) 0)) || Z.eqb (y mod 400) 0.

Definition days_in_month (y m : Z) : Z :=
  if Z.eqb m 2 then (if is_leap y then 29 else 28)
  else if existsb (Z.eqb m) [4; 6; 9; 11] then 30 else 31.

(** The offset of the host's local time from UTC, in milliseconds, at a
    given time: [new Date(s)] reads a date-time written without a zone as
    local time.  The development takes the host's zone to be UTC. *)
Definition local_tz_offset_ms (t : Z) : Z := 0.

(** A two-digit field whose value is at most [hi]. *)
Definition two_digits (ds : list Z) (hi : Z) : option Z :=
  if Nat.eqb (length ds) 2 then
    let v := digits_value ds in if v <=? hi then Some v else None
  else None.

(** The milliseconds of a fraction of a second: its first three digits. *)
Definition fraction_ms (ds : list Z) : Z :=
  digits_value (firstn 3 (ds ++ [0; 0; 0])).

(** [HH:mm], an optional [:ss] and, after the seconds, an optional
    fraction [.sss]: the milliseconds since midnight and the rest of the
    text.  [24:00] is allowed only for [24:00:00.000]. *)
Definition parse_time_of_day (s : string) : option (Z * string) :=
  let '(hd, r1) := digits_prefix s in
  match r1 with
  | String ":" r2 =>
      let '(mid, r3) := digits_prefix r2 in
      let '(sec, r5) :=
        match r3 with
        | String ":" r4 => let '(sd, r) := digits_prefix r4 in (Some sd, r)
        | _ => (None, r3)
        end in
      let '(fr, r7) :=
        match sec, r5 with
        | Some _, String "." r6 => let '(fd, r) := digits_prefix r6 in (Some fd, r)
        | _, _ => (None, r5)
        end in
      match two_digits hd 24, two_digits mid 59,
            match sec with Some sd => two_digits sd 59 | None => Some 0 end,
            match fr with
            | Some [] => None
            | Some fd => Some (fraction_ms fd)
            | None => Some 0
            end with
      | Some h, Some m, Some sc, Some ms =>
          if (Z.eqb h 24 && negb (Z.eqb m 0 && Z.eqb sc 0 && Z.eqb ms 0))%bool then None
          else Some (((h * 60 + m) * 60 + sc) * 1000 + ms, r7)
      | _, _, _, _ => None
      end
  | _ => None
  end.

(** The zone of a date-time: none (local time), [Z], or [+HH:mm] /
    [-HH:mm] (the offset in milliseconds). *)
Definition parse_zone (s : string) : option (option Z) :=
  match s with
  | EmptyString => Some None
  | String "Z" EmptyString => Some (Some 0)
  | String c r =>
      if (Ascii.eqb c "+" || Ascii.eqb c "-")%bool then
        let '(hd, r1) := digits_prefix r in
        match r1 with
        | String ":" r2 =>
            let '(md, r3) := digits_prefix r2 in
            match two_digits hd 23, two_digits md 59, r3 with
            | Some h, Some m, EmptyString =>
                let off := (h * 60 + m) * 60000 in
                Some (Some (if Ascii.eqb c "+" then off else - off))
            | _, _, _ => None
            end
        | _ => None
        end
      else None
  end.

(** [new Date(s).getTime()] for the ISO forms: the date-only form
    [YYYY-MM-DD] (midnight UTC, in milliseconds), and the date-time form
    [YYYY-MM-DDTHH:mm:ss.sss] with optional seconds and fraction and an
    optional zone, where V8 also accepts a blank for [T] (AlphaVantage's
    intraday keys [YYYY-MM-DD HH:mm:ss]); without a zone a date-time is
    local time.  A time beyond the range of [Date] is [NaN].  The other,
    implementation-defined, formats V8 accepts are not modelled and give
    [NaN]. *)
Definition date_get_time (v : jsval) : number :=
  match v with
  | JStr s =>
      let '(yd, r1) := digits_prefix s in
      match r1 with
      | String "-" r2 =>
          let '(md, r3) := digits_prefix r2 in
          match r3 with
          | String "-" r4 =>
              let '(dd, r5) := digits_prefix r4 in
              let y := digits_value yd in
              let m := digits_value md in
              let d := digits_value dd in
              if (Nat.eqb (length yd) 4 && Nat.eqb (length md) 2 && Nat.eqb (length dd) 2
                  && (1 <=? m) && (m <=? 12)
                  && (1 <=? d) && (d <=? days_in_month y m))%bool
              then
                let day_ms := days_from_civil y m d * 86400000 in
                match r5 with
                | EmptyString => Fin (inject_Z day_ms)
                | String c r6 =>
                    if (Ascii.eqb c "T" || Ascii.eqb c " ")%bool then
                      match parse_time_of_day r6 with
                      | Some (tms, r7) =>
                          match parse_zone r7 with
                          | Some zone =>
                              let local := day_ms + tms in
                              let utc := match zone with
                                         | Some off => local - off
                                         | None => local - local_tz_offset_ms local
                                         end in
                              if Z.abs utc <=? 8640000000000000 then Fin (inject_Z utc)
                              else NaN
                          | None => NaN
                          end
                      | None => NaN
                      end
                    else NaN
                end
              else NaN
          | _ => NaN
          end
      | _ => NaN
      end
  | _ => NaN
  end.

(** [new Date(ms).toISOString().split('T')[0]] as a day number (days since
    the epoch; ISO date strings order like these numbers): a non-finite
    time or one beyond the [Date] range makes [toISOString] throw. *)
Definition iso_day_of_ms (n : number) : result Z :=
  match n with
  | NaN => Err "RangeError: Invalid time value"
  | Fin q =>
      if Qle_bool q (inject_Z 8640000000000000) && Qle_bool (inject_Z (-8640000000000000)) q
      then Ok (Qfloor q / 86400000)
      else Err "RangeError: Invalid time value"
  end.

(** Stored JSON text.  Text produced by [JSON.stringify] is [Serialized] of
    the value it encodes; anything else in the store is [Malformed]. *)
Inductive json_text :=
| Serialized (v : jsval)
| Malformed (raw : string).

(** What [JSON.stringify] keeps of a value: [NaN] becomes [null], fields
    holding [undefined] or a function are dropped, and in arrays they
    become [null]. *)
Fixpoint json_norm (v : jsval) : jsval :=
  match v with
  | JNum NaN => JNull
  | JUndef | JFun _ => JNull
  | JArr xs => JArr (map json_norm xs)
  | JObj fs =>
      JObj ((fix go (l : list (string * jsval)) : list (string * jsval) :=
               match l with
               | [] => []
               | (k, JUndef) :: l' => go l'
               | (k, JFun _) :: l' => go l'
               | (k, x) :: l' => (k, json_norm x) :: go l'
               end) fs)
  | _ => v
  end.

Definition JSON_stringify (v : jsval) : json_text := Serialized (json_norm v).

Definition JSON_parse (t : json_text) : result jsval :=
  match t with
  | Serialized v => Ok v
  | Malformed _ => Err "SyntaxError: Unexpected token in JSON"
  end.

(* ================================================================== *)
(** ** Stores, the effect monad and its interpreter *)

Inductive asset_type := STOCK | CRYPTO.

Definition asset_type_str (a : asset_type) : string :=
  match a with STOCK => "STOCK" | CRYPTO => "CRYPTO" end.

(** Modelled from the spec: the persisted Cache Store ([CacheService] of
    src/server/src/services/cache.ts, not among the sources).  An entry
    holds the serialized payload, its expiry time and its source tag;
    [set] overwrites the entry of its key (last writer wins). *)
Record CacheEntry := {
  ce_payloadJson : json_text;
  ce_expiresAt : Z;          (* epoch milliseconds *)
  ce_source : string
}.

(** Modelled from the spec: what [CacheService.getCacheConfig] returns,
    the payload with the derived flag [isStale] (now > expiresAt). *)
Record CachedView := {
  cv_payloadJson : json_text;
  cv_isStale : bool
}.

Definition view_entry (now : Z) (e : CacheEntry) : CachedView :=
  {| cv_payloadJson := ce_payloadJson e; cv_isStale := now >? ce_expiresAt e |}.

(** A [fetch] response: [res.ok], [res.status] and the body read by
    [res.json()]. *)
Record response := {
  res_ok : bool;
  res_status : Z;
  res_body : json_text
}.

(** A row of the Prisma [priceHistory] table; [ph_date] is the calendar
    day (days since the epoch) of the ISO date string the code stores. *)
Record PriceHistoryRow := {
  ph_symbol : string;
  ph_date : Z;
  ph_assetType : asset_type;
  ph_open : number;
  ph_high : number;
  ph_low : number;
  ph_close : number;
  ph_volume : number
}.

(** The [update] argument of [prisma.priceHistory.upsert]: the five candle
    fields as passed (a field holding [undefined] is left unchanged by
    Prisma) and [assetType] when the update object lists it. *)
Record HistoryUpdate := {
  hu_open : jsval; hu_high : jsval; hu_low : jsval; hu_close : jsval;
  hu_volume : jsval;
  hu_assetType : option asset_type
}.

(** The [create] argument of the same call. *)
Record HistoryCreate := {
  hc_symbol : string; hc_assetType : asset_type; hc_date : Z;
  hc_open : jsval; hc_high : jsval; hc_low : jsval; hc_close : jsval;
  hc_volume : jsval
}.

(** A row of the Prisma [jobState] table. *)
Record JobState := {
  js_id : string;
  js_status : string
}.

(** Fire-and-forget work handed to the event loop ([setImmediate] or an
    un-awaited promise). *)
Inductive task :=
| TBackfill (symbol : string) (assetType : asset_type)
| TScreener (universe : string) (date : string).

(** Outbound calls, recorded in the order they are made. *)
Inductive net_call :=
| CallFetch (url : string)
| CallFinnhubQuote (symbol : string)
| CallFinnhubCandles (symbol resolution : string) (from to : Z).

(** Programs: each constructor but [Ret] and [Throw] is one awaited call of
    the source, with the continuation that resumes after it. *)
Inductive prog (A : Type) : Type :=
| Ret (a : A)
| Throw (e : string)
| CacheGet (key : string) (k : option CachedView -> prog A)
| CacheSet (key : string) (payload : json_text) (ttl : Z) (source : string)
    (k : prog A)
| Fetch (url : string) (k : result response -> prog A)
| FinnhubQuote (symbol : string) (k : result jsval -> prog A)
| FinnhubCandles (symbol resolution : string) (from to : Z)
    (k : result jsval -> prog A)
| DateNow (k : Z -> prog A)
| HotGet (key : string) (k : option jsval -> prog A)
| HotSet (key : string) (v : jsval) (k : prog A)
| TrackSymbol (symbol : string) (k : prog A)
| HistoryFind (symbol : string) (cutoff : Z) (k : list PriceHistoryRow -> prog A)
| HistoryUpsert (symbol : string) (date : Z) (upd : HistoryUpdate)
    (crt : HistoryCreate) (k : result unit -> prog A)
| JobFind (id : string) (k : option JobState -> prog A)
| Spawn (t : task) (k : prog A).
Arguments Ret {A} a.
Arguments Throw {A} e.
Arguments CacheGet {A} key k.
Arguments CacheSet {A} key payload ttl source k.
Arguments Fetch {A} url k.
Arguments FinnhubQuote {A} symbol k.
Arguments FinnhubCandles {A} symbol resolution from to k.
Arguments DateNow {A} k.
Arguments HotGet {A} key k.
Arguments HotSet {A} key v k.
Arguments TrackSymbol {A} symbol k.
Arguments HistoryFind {A} symbol cutoff k.
Arguments HistoryUpsert {A} symbol date upd crt k.
Arguments JobFind {A} id k.
Arguments Spawn {A} t k.

Fixpoint prog_bind {A B} (p : prog A) (f : A -> prog B) : prog B :=
  match p with
  | Ret a => f a
  | Throw e => Throw e
  | CacheGet key k => CacheGet key (fun x => prog_bind (k x) f)
  | CacheSet key pl ttl src k => CacheSet key pl ttl src (prog_bind k f)
  | Fetch url k => Fetch url (fun x => prog_bind (k x) f)
  | FinnhubQuote s k => FinnhubQuote s (fun x => prog_bind (k x) f)
  | FinnhubCandles s r a b k => FinnhubCandles s r a b (fun x => prog_bind (k x) f)
  | DateNow k => DateNow (fun x => prog_bind (k x) f)
  | HotGet key k => HotGet key (fun x => prog_bind (k x) f)
  | HotSet key v k => HotSet key v (prog_bind k f)
  | TrackSymbol s k => TrackSymbol s (prog_bind k f)
  | HistoryFind s c k => HistoryFind s c (fun x => prog_bind (k x) f)
  | HistoryUpsert s d u c k => HistoryUpsert s d u c (fun x => prog_bind (k x) f)
  | JobFind i k => JobFind i (fun x => prog_bind (k x) f)
  | Spawn t k => Spawn t (prog_bind k f)
  end.

(** [try { p } catch (e) { h(e) }]. *)
Fixpoint try_catch {A} (p : prog A) (h : string -> prog A) : prog A :=
  match p with
  | Ret a => Ret a
  | Throw e => h e
  | CacheGet key k => CacheGet key (fun x => try_catch (k x) h)
  | CacheSet key pl ttl src k => CacheSet key pl ttl src (try_catch k h)
  | Fetch url k => Fetch url (fun x => try_catch (k x) h)
  | FinnhubQuote s k => FinnhubQuote s (fun x => try_catch (k x) h)
  | FinnhubCandles s r a b k => FinnhubCandles s r a b (fun x => try_catch (k x) h)
  | DateNow k => DateNow (fun x => try_catch (k x) h)
  | HotGet key k => HotGet key (fun x => try_catch (k x) h)
  | HotSet key v k => HotSet key v (try_catch k h)
  | TrackSymbol s k => TrackSymbol s (try_catch k h)
  | HistoryFind s c k => HistoryFind s c (fun x => try_catch (k x) h)
  | HistoryUpsert s d u c k => HistoryUpsert s d u c (fun x => try_catch (k x) h)
  | JobFind i k => JobFind i (fun x => try_catch (k x) h)
  | Spawn t k => Spawn t (try_catch k h)
  end.

Global Instance prog_ret : MRet prog := fun A a => Ret a.
Global Instance prog_mbind : MBind prog := fun A B f p => prog_bind p f.

(** A thrown error, or the value of a computation that may throw. *)
Definition lift {A} (r : result A) : prog A :=
  match r with Ok a => Ret a | Err e => Throw e end.

(** The awaited calls, failing as the awaited promise rejects. *)
Definition getCacheConfig (key : string) : prog (option CachedView) := CacheGet key Ret.
Definition setCacheConfig (key : string) (payload : json_text) (ttl : Z) (source : string)
  : prog unit := CacheSet key payload ttl source (Ret tt).
Definition fetch (url : string) : prog response := Fetch url lift.
Definition date_now : prog Z := DateNow Ret.

(** Everything the programs observe or change.  [w_fetch] answers each
    [fetch] (a rejected promise is [Err]); [w_finnhub_quote] and
    [w_finnhub_candles] answer the secondary provider; [w_db_faults] is the
    schedule of Prisma upserts that fail ([true] = this upsert rejects). *)
Record World := {
  w_now : Z;
  w_cache : gmap string CacheEntry;
  w_fetch : string -> result response;
  w_finnhub_quote : string -> result jsval;
  w_finnhub_candles : string -> string -> Z -> Z -> result jsval;
  w_hot : gmap string jsval;
  w_tracked : list string;
  w_history : list PriceHistoryRow;
  w_db_faults : list bool;
  w_jobs : gmap string JobState;
  w_spawned : list task;
  w_calls : list net_call
}.

Definition set_cache (c : gmap string CacheEntry) (w : World) : World :=
  {| w_now := w_now w; w_cache := c; w_fetch := w_fetch w;
     w_finnhub_quote := w_finnhub_quote w; w_finnhub_candles := w_finnhub_candles w;
     w_hot := w_hot w; w_tracked := w_tracked w; w_history := w_history w;
     w_db_faults := w_db_faults w; w_jobs := w_jobs w; w_spawned := w_spawned w;
     w_calls := w_calls w |}.

Definition set_hot (h : gmap string jsval) (w : World) : World :=
  {| w_now := w_now w; w_cache := w_cache w; w_fetch := w_fetch w;
     w_finnhub_quote := w_finnhub_quote w; w_finnhub_candles := w_finnhub_candles w;
     w_hot := h; w_tracked := w_tracked w; w_history := w_history w;
     w_db_faults := w_db_faults w; w_jobs := w_jobs w; w_spawned := w_spawned w;
     w_calls := w_calls w |}.

Definition set_tracked (t : list string) (w : World) : World :=
  {| w_now := w_now w; w_cache := w_cache w; w_fetch := w_fetch w;
     w_finnhub_quote := w_finnhub_quote w; w_finnhub_candles := w_finnhub_candles w;
     w_hot := w_hot w; w_tracked := t; w_history := w_history w;
     w_db_faults := w_db_faults w; w_jobs := w_jobs w; w_spawned := w_spawned w;
     w_calls := w_calls w |}.

Definition set_history (h : list PriceHistoryRow) (f : list bool) (w : World) : World :=
  {| w_now := w_now w; w_cache := w_cache w; w_fetch := w_fetch w;
     w_finnhub_quote := w_finnhub_quote w; w_finnhub_candles := w_finnhub_candles w;
     w_hot := w_hot w; w_tracked := w_tracked w; w_history := h;
     w_db_faults := f; w_jobs := w_jobs w; w_spawned := w_spawned w;
     w_calls := w_calls w |}.

Definition set_jobs (j : gmap string JobState) (w : World) : World :=
  {| w_now := w_now w; w_cache := w_cache w; w_fetch := w_fetch w;
     w_finnhub_quote := w_finnhub_quote w; w_finnhub_candles := w_finnhub_candles w;
     w_hot := w_hot w; w_tracked := w_tracked w; w_history := w_history w;
     w_db_faults := w_db_faults w; w_jobs := j; w_spawned := w_spawned w;
     w_calls := w_calls w |}.

Definition add_spawned (t : task) (w : World) : World :=
  {| w_now := w_now w; w_cache := w_cache w; w_fetch := w_fetch w;
     w_finnhub_quote := w_finnhub_quote w; w_finnhub_candles := w_finnhub_candles w;
     w_hot := w_hot w; w_tracked := w_tracked w; w_history := w_history w;
     w_db_faults := w_db_faults w; w_jobs := w_jobs w; w_spawned := app (w_spawned w) [t];
     w_calls := w_calls w |}.

Definition add_call (c : net_call) (w : World) : World :=
  {| w_now := w_now w; w_cache := w_cache w; w_fetch := w_fetch w;
     w_finnhub_quote := w_finnhub_quote w; w_finnhub_candles := w_finnhub_candles w;
     w_hot := w_hot w; w_tracked := w_tracked w; w_history := w_history w;
     w_db_faults := w_db_faults w; w_jobs := w_jobs w; w_spawned := w_spawned w;
     w_calls := app (w_calls w) [c] |}.

(** Prisma's [findMany({ where: { symbol, date: { gte: cutoff } },
    orderBy: { date: 'asc' } })]. *)
Definition row_date_le (r1 r2 : PriceHistoryRow) : Prop := ph_date r1 <= ph_date r2.
Global Instance row_date_le_dec : RelDecision row_date_le :=
  fun r1 r2 => Z_le_dec (ph_date r1) (ph_date r2).

Definition history_find (rows : list PriceHistoryRow) (symbol : string) (cutoff : Z)
  : list PriceHistoryRow :=
  merge_sort row_date_le
    (List.filter (fun r => String.eqb (ph_symbol r) symbol && (cutoff <=? ph_date r)) rows).

(** Prisma's checks on a [Float] argument: a number is taken, [undefined]
    means the argument is absent, anything else is a validation error. *)
Definition prisma_float_opt (v : jsval) : result (option number) :=
  match v with
  | JNum n => Ok (Some n)
  | JUndef => Ok None
  | _ => Err "PrismaClientValidationError"
  end.

Definition prisma_float (v : jsval) : result number :=
  match v with
  | JNum n => Ok n
  | _ => Err "PrismaClientValidationError"
  end.

Definition row_key_is (symbol : string) (date : Z) (r : PriceHistoryRow) : bool :=
  String.eqb (ph_symbol r) symbol && Z.eqb (ph_date r) date.

Definition apply_update (o h l c v : option number) (a : option asset_type)
  (r : PriceHistoryRow) : PriceHistoryRow :=
  {| ph_symbol := ph_symbol r; ph_date := ph_date r;
     ph_assetType := default (ph_assetType r) a;
     ph_open := default (ph_open r) o; ph_high := default (ph_high r) h;
     ph_low := default (ph_low r) l; ph_close := default (ph_close r) c;
     ph_volume := default (ph_volume r) v |}.

(** Prisma's [upsert] on the unique key [(symbol, date)]: the row holding
    the key is updated, or a row is created when none does.  Modelled from
    the spec: the schema (not in the sources) declares [(symbol, date)]
    unique, which the [symbol_date] selector of the code requires; an
    insert that would repeat a key is refused by the database. *)
Definition prisma_upsert (rows : list PriceHistoryRow) (symbol : string) (date : Z)
  (u : HistoryUpdate) (c : HistoryCreate) : result (list PriceHistoryRow) :=
  if existsb (row_key_is symbol date) rows then
    match prisma_float_opt (hu_open u), prisma_float_opt (hu_high u),
          prisma_float_opt (hu_low u), prisma_float_opt (hu_close u),
          prisma_float_opt (hu_volume u) with
    | Ok o, Ok h, Ok l, Ok cl, Ok v =>
        Ok (map (fun r => if row_key_is symbol date r
                          then apply_update o h l cl v (hu_assetType u) r else r) rows)
    | _, _, _, _, _ => Err "PrismaClientValidationError"
    end
  else
    match prisma_float (hc_open c), prisma_float (hc_high c), prisma_float (hc_low c),
          prisma_float (hc_close c), prisma_float (hc_volume c) with
    | Ok o, Ok h, Ok l, Ok cl, Ok v =>
        if existsb (row_key_is (hc_symbol c) (hc_date c)) rows
        then Err "PrismaClientKnownRequestError"
        else
        Ok (app rows [{| ph_symbol := hc_symbol c; ph_date := hc_date c;
                        ph_assetType := hc_assetType c; ph_open := o; ph_high := h;
                        ph_low := l; ph_close := cl; ph_volume := v |}])
    | _, _, _, _, _ => Err "PrismaClientValidationError"
    end.

(** The unique key of a stored row, and the uniqueness of keys in a
    table. *)
Definition row_key (r : PriceHistoryRow) : string * Z := (ph_symbol r, ph_date r).


(** [trackSymbol]: a symbol not yet tracked is added to the tracked set. *)
Definition track_symbol (s : string) (w : World) : World :=
  if existsb (String.eqb s) (w_tracked w) then w else set_tracked (app (w_tracked w) [s]) w.

(** The interpreter.  [TrackSymbol] adds the symbol to the tracked set
    (the WebSocket subscribe it may send is not a REST call and is not
    modelled); [Spawn] only queues the task: its body runs later, outside
    the caller's run. *)
Fixpoint run {A} (p : prog A) (w : World) : result A * World :=
  match p with
  | Ret a => (Ok a, w)
  | Throw e => (Err e, w)
  | CacheGet key k => run (k (view_entry (w_now w) <$> w_cache w !! key)) w
  | CacheSet key pl ttl src k =>
      run k (set_cache (<[key := {| ce_payloadJson := pl;
                                    ce_expiresAt := w_now w + ttl * 1000;
                                    ce_source := src |}]> (w_cache w)) w)
  | Fetch url k => run (k (w_fetch w url)) (add_call (CallFetch url) w)
  | FinnhubQuote s k =>
      run (k (w_finnhub_quote w s)) (add_call (CallFinnhubQuote s) w)
  | FinnhubCandles s r a b k =>
      run (k (w_finnhub_candles w s r a b)) (add_call (CallFinnhubCandles s r a b) w)
  | DateNow k => run (k (w_now w)) w
  | HotGet key k => run (k (w_hot w !! key)) w
  | HotSet key v k => run k (set_hot (<[key := v]> (w_hot w)) w)
  | TrackSymbol s k => run k (track_symbol s w)
  | HistoryFind s c k => run (k (history_find (w_history w) s c)) w
  | HistoryUpsert s d u c k =>
      match w_db_faults w with
      | true :: fs => run (k (Err "PrismaClientKnownRequestError"))
                          (set_history (w_history w) fs w)
      | fs =>
          let fs' := tail fs in
          match prisma_upsert (w_history w) s d u c with
          | Ok rows => run (k (Ok tt)) (set_history rows fs' w)
          | Err e => run (k (Err e)) (set_history (w_history w) fs' w)
          end
      end
  | JobFind i k => run (k (w_jobs w !! i)) w
  | Spawn t k => run k (add_spawned t w)
  end.

(* ================================================================== *)
(** ** JavaScript library functions used by the code *)

Global Instance result_ret : MRet result := fun A a => Ok a.
Global Instance result_mbind : MBind result :=
  fun A B f r => match r with Ok a => f a | Err e => Err e end.

(** [String(v)], as template literals apply it: integral numbers print
    in decimal (other finite numbers are not needed by the claims and
    print as their integral part). *)
Definition js_to_string (v : jsval) : string :=
  match v with
  | JUndef => "undefined"
  | JNull => "null"
  | JBool b => if b then "true" else "false"
  | JNum NaN => "NaN"
  | JNum (Fin q) => pretty (Z.quot (Qnum q) (Zpos (Qden q)))
  | JStr s => s
  | JArr _ => ""
  | JObj _ => "[object Object]"
  | JFun n => "function " +:+ n
  end.

(** [s.replace(pat, rep)] with a string pattern: the first occurrence is
    replaced; calling it on a non-string throws. *)
Definition js_replace (v : jsval) (pat rep : string) : result jsval :=
  match v with
  | JStr s =>
      match String.index 0 pat s with
      | Some i =>
          Ok (JStr (substring 0 i s +:+ rep
                    +:+ substring (i + String.length pat) (String.length s) s))
      | None => Ok (JStr s)
      end
  | _ => Err "TypeError: replace is not a function"
  end.

Definition str_includes (s pat : string) : bool :=
  match String.index 0 pat s with Some _ => true | None => false end.

(** [Object.keys(v)] (own enumerable keys in insertion order). *)
Definition object_keys (v : jsval) : result (list string) :=
  match v with
  | JUndef | JNull => Err "TypeError: Cannot convert undefined or null to object"
  | JObj fs => Ok (map fst fs)
  | JArr xs => Ok (map pretty (seq 0 (length xs)))
  | JStr s => Ok (map pretty (seq 0 (String.length s)))
  | _ => Ok []
  end.

(** [xs.map(f)] for an [f] that may throw; on a non-array it throws. *)
Fixpoint rmap_list {A B} (f : A -> result B) (xs : list A) : result (list B) :=
  match xs with
  | [] => Ok []
  | x :: xs' => y ← f x; ys ← rmap_list f xs'; Ok (y :: ys)
  end.

Definition js_array_map (v : jsval) (f : jsval -> result jsval) : result jsval :=
  match v with
  | JArr xs => ys ← rmap_list f xs; Ok (JArr ys)
  | JUndef | JNull => Err "TypeError: Cannot read properties"
  | _ => Err "TypeError: map is not a function"
  end.

(** [a[i]] for a number index [i]. *)
Definition js_index (a : jsval) (i : nat) : result jsval := js_get a (pretty i).

Definition num_gt0 (n : number) : bool :=
  match n with Fin q => negb (Qle_bool q 0) | NaN => false end.

Definition num_eqb (n : number) (z : Z) : bool :=
  match n with Fin q => Qeq_bool q (inject_Z z) | NaN => false end.

Definition num_sub (a b : number) : number :=
  match a, b with Fin x, Fin y => Fin (x - y) | _, _ => NaN end.

Definition js_num (z : Z) : jsval := JNum (Fin (inject_Z z)).

(** The comparator [(a, b) => new Date(a).getTime() - new Date(b).getTime()]
    as an order on date strings (an unparsable date compares equal to
    everything, as a [NaN] difference does). *)
Definition date_key_le (a b : string) : Prop :=
  match date_get_time (JStr a), date_get_time (JStr b) with
  | Fin x, Fin y => Qle_bool x y = true
  | _, _ => True
  end.
Global Instance date_key_le_dec : RelDecision date_key_le.
Proof.
  intros a b. unfold date_key_le.
  destruct (date_get_time (JStr a)), (date_get_time (JStr b)); try (left; exact I).
  apply bool_eq_dec.
Defined.

(* ================================================================== *)
(** ** AlphaVantageProvider (providers/alphavantage.ts) *)

(** Defaults of [process.env.ALPHAVANTAGE_BASE_URL] and [..._API_KEY]. *)
Definition ALPHAVANTAGE_BASE_URL : string := "https://www.alphavantage.co/query".
Definition ALPHAVANTAGE_API_KEY : string := "".

(** [if (cached && !cached.isStale)]: the payload of a fresh entry. *)
Definition cache_hit (cached : option CachedView) : option json_text :=
  match cached with
  | Some c => if cv_isStale c then None else Some (cv_payloadJson c)
  | None => None
  end.

(** The quote object built from an AlphaVantage [Global Quote]. *)
Definition av_quote_payload (symbol : string) (quote : jsval) : result jsval :=
  price ← js_get quote "05. price";
  change ← js_get quote "09. change";
  pct_raw ← js_get quote "10. change percent";
  pct ← js_replace pct_raw "%" "";
  day ← js_get quote "07. latest trading day";
  Ok (JObj [("symbol", JStr symbol); ("assetType", JStr "STOCK");
            ("price", JNum (parseFloat price)); ("changeAbs", JNum (parseFloat change));
            ("changePct", JNum (parseFloat pct)); ("ts", JNum (date_get_time day));
            ("source", JStr "ALPHAVANTAGE"); ("isStale", JBool false)]).

(** [data['Note'] || data['Information']]. *)
Definition av_limit_reached (data : jsval) : result bool :=
  note ← js_get data "Note";
  if js_truthy note then Ok true
  else info ← js_get data "Information"; Ok (js_truthy info).

Definition av_getQuote (symbol : string) : prog jsval :=
  let cacheKey := "quote:av:" +:+ symbol in
  cached ← getCacheConfig cacheKey;
  match cache_hit cached with
  | Some payloadJson => lift (JSON_parse payloadJson)
  | None =>
      try_catch
        (let url := ALPHAVANTAGE_BASE_URL +:+ "?function=GLOBAL_QUOTE&symbol=" +:+ symbol
                    +:+ "&apikey=" +:+ ALPHAVANTAGE_API_KEY in
         res ← fetch url;
         if negb (res_ok res) then Throw ("AV Error " +:+ pretty (res_status res)) else
         data ← lift (JSON_parse (res_body res));
         limited ← lift (av_limit_reached data);
         if (limited : bool) then Throw "API limit reached" else
         quote ← lift (js_get data "Global Quote");
         if negb (js_truthy quote) then Throw "No quote data" else
         price ← lift (js_get quote "05. price");
         if negb (js_truthy price) then Throw "No quote data" else
         payload ← lift (av_quote_payload symbol quote);
         setCacheConfig cacheKey (JSON_stringify payload) 900 "ALPHAVANTAGE";;
         mret payload)
        (fun e => Throw e)
  end.

(** [ts[d][f1] || ts[d][f2]] parsed as a float. *)
Definition av_field (ts : jsval) (f1 f2 : string) (d : string) : result jsval :=
  row ← js_get ts d;
  x ← js_get row f1;
  if js_truthy x then Ok (JNum (parseFloat x))
  else if String.eqb f2 "" then Ok (JNum (parseFloat x))
  else y ← js_get row f2; Ok (JNum (parseFloat y)).

(** The candle series built from an AlphaVantage time series object. *)
Definition av_candles_payload (ts : jsval) : result jsval :=
  keys ← object_keys ts;
  let dates := merge_sort date_key_le keys in
  let jdates := JArr (map JStr dates) in
  t ← js_array_map jdates (fun d =>
         Ok (JNum (math_floor (num_div (date_get_time d) (Fin 1000)))));
  o ← rmap_list (av_field ts "1. open" "") dates;
  h ← rmap_list (av_field ts "2. high" "") dates;
  l ← rmap_list (av_field ts "3. low" "") dates;
  c ← rmap_list (av_field ts "4. close" "4. adjusted close") dates;
  v ← rmap_list (av_field ts "6. volume" "5. volume") dates;
  Ok (JObj [("s", JStr "ok"); ("t", t); ("o", JArr o); ("h", JArr h); ("l", JArr l);
            ("c", JArr c); ("v", JArr v); ("source", JStr "ALPHAVANTAGE")]).

Definition av_getCandles (symbol : string) (isIntraday : bool) : prog jsval :=
  let cacheKey := "candle:av:" +:+ symbol +:+ ":"
                  +:+ (if isIntraday then "intraday" else "daily") in
  cached ← getCacheConfig cacheKey;
  match cache_hit cached with
  | Some payloadJson => lift (JSON_parse payloadJson)
  | None =>
      try_catch
        (let func := if isIntraday then "TIME_SERIES_INTRADAY"
                     else "TIME_SERIES_DAILY_ADJUSTED" in
         let intervalParam := if isIntraday then "&interval=60min" else "" in
         let url := ALPHAVANTAGE_BASE_URL +:+ "?function=" +:+ func +:+ "&symbol=" +:+ symbol
                    +:+ "&outputsize=full" +:+ intervalParam +:+ "&apikey="
                    +:+ ALPHAVANTAGE_API_KEY in
         res ← fetch url;
         data ← lift (JSON_parse (res_body res));
         limited ← lift (av_limit_reached data);
         if (limited : bool) then Throw "API limit reached" else
         keys ← lift (object_keys data);
         match List.find (fun k => str_includes k "Time Series") keys with
         | None => Throw "Invalid AV format"
         | Some timeSeriesKey =>
             ts ← lift (js_get data timeSeriesKey);
             payload ← lift (av_candles_payload ts);
             setCacheConfig cacheKey (JSON_stringify payload)
               (if isIntraday then 1800 else 86400) "ALPHAVANTAGE";;
             mret payload
         end)
        (fun e => Throw e)
  end.

Definition av_getOverview (symbol : string) : prog jsval :=
  let cacheKey := "overview:av:" +:+ symbol in
  cached ← getCacheConfig cacheKey;
  match cache_hit cached with
  | Some payloadJson => lift (JSON_parse payloadJson)
  | None =>
      try_catch
        (let url := ALPHAVANTAGE_BASE_URL +:+ "?function=OVERVIEW&symbol=" +:+ symbol
                    +:+ "&apikey=" +:+ ALPHAVANTAGE_API_KEY in
         res ← fetch url;
         data ← lift (JSON_parse (res_body res));
         limited ← lift (av_limit_reached data);
         if (limited : bool) then Throw "API limit reached" else
         keys ← lift (object_keys data);
         if Nat.eqb (length keys) 0 then Throw "No overview found" else
         setCacheConfig cacheKey (JSON_stringify data) (86400 * 7) "ALPHAVANTAGE";;
         mret data)
        (fun e => Throw e)
  end.

(* ================================================================== *)
(** ** BinanceProvider (providers/binance.ts) *)

(** Default of [process.env.BINANCE_REST_BASE_URL]. *)
Definition BINANCE_REST_BASE_URL : string := "https://api.binance.com".

(** The quote object built from a [24hrTicker] stream message. *)
Definition binance_ws_payload (parsed : jsval) : result jsval :=
  symbol ← js_get parsed "s";
  c ← js_get parsed "c";
  p ← js_get parsed "p";
  pp ← js_get parsed "P";
  e ← js_get parsed "E";
  Ok (JObj [("symbol", symbol); ("assetType", JStr "CRYPTO");
            ("price", JNum (parseFloat c)); ("changeAbs", JNum (parseFloat p));
            ("changePct", JNum (parseFloat pp)); ("ts", e);
            ("source", JStr "BINANCE_WS"); ("isStale", JBool false)]).

(** The [message] handler of the stream: the hot cache is updated at once,
    the persisted cache at most every 5 seconds per symbol; any error is
    swallowed. *)
Definition ws_on_message (data : json_text) : prog unit :=
  try_catch
    (parsed ← lift (JSON_parse data);
     e ← lift (js_get parsed "e");
     if js_str_eq e "24hrTicker" then
       symbol ← lift (js_get parsed "s");
       payload ← lift (binance_ws_payload parsed);
       HotSet ("quote:" +:+ js_to_string symbol) payload (Ret tt);;
       last ← HotGet ("dbwrite:" +:+ js_to_string symbol) Ret;
       let lastDbWrite := match last with
                          | Some v => if js_truthy v then v else js_num 0
                          | None => js_num 0
                          end in
       now ← date_now;
       if num_gt0 (num_sub (num_sub (Fin (inject_Z now)) (to_number lastDbWrite)) (Fin 5000))
       then setCacheConfig ("quote:" +:+ js_to_string symbol) (JSON_stringify payload) 60
              "BINANCE_WS";;
            now' ← date_now;
            HotSet ("dbwrite:" +:+ js_to_string symbol) (js_num now') (Ret tt)
       else mret tt
     else mret tt)
    (fun _ => mret tt).

(** The quote object built from a REST [ticker/24hr] response. *)
Definition binance_rest_payload (data : jsval) : result jsval :=
  symbol ← js_get data "symbol";
  lastPrice ← js_get data "lastPrice";
  priceChange ← js_get data "priceChange";
  priceChangePercent ← js_get data "priceChangePercent";
  closeTime ← js_get data "closeTime";
  Ok (JObj [("symbol", symbol); ("assetType", JStr "CRYPTO");
            ("price", JNum (parseFloat lastPrice)); ("changeAbs", JNum (parseFloat priceChange));
            ("changePct", JNum (parseFloat priceChangePercent)); ("ts", closeTime);
            ("source", JStr "BINANCE_REST"); ("isStale", JBool false)]).

(** The REST part of [getQuote], after the hot cache missed. *)
Definition binance_quote_rest (symbol : string) : prog jsval :=
  cached ← getCacheConfig ("quote:" +:+ symbol);
  match cache_hit cached with
  | Some payloadJson => lift (JSON_parse payloadJson)
  | None =>
      try_catch
        (res ← fetch (BINANCE_REST_BASE_URL +:+ "/api/v3/ticker/24hr?symbol=" +:+ symbol);
         if negb (res_ok res) then Throw ("Binance REST HTTP " +:+ pretty (res_status res))
         else
         data ← lift (JSON_parse (res_body res));
         payload ← lift (binance_rest_payload data);
         setCacheConfig ("quote:" +:+ symbol) (JSON_stringify payload) 60 "BINANCE_REST";;
         mret payload)
        (fun _ =>
           match cached with
           | Some c =>
               stale ← lift (JSON_parse (cv_payloadJson c));
               lift (js_set stale "isStale" (JBool true))
           | None => Throw "No crypto quote available"
           end)
  end.

Definition binance_getQuote (symbol : string) : prog jsval :=
  TrackSymbol symbol (Ret tt);;
  mem ← HotGet ("quote:" +:+ symbol) Ret;
  match mem with
  | Some v => if js_truthy v then mret v else binance_quote_rest symbol
  | None => binance_quote_rest symbol
  end.

(** One kline [k] of the REST response, field [i] parsed as a float. *)
Definition kline_field (i : nat) (k : jsval) : result jsval :=
  x ← js_index k i; Ok (JNum (parseFloat x)).

(** The candle series built from a REST [klines] response. *)
Definition binance_klines_payload (data : jsval) : result jsval :=
  t ← js_array_map data (fun k =>
         x ← js_index k 0; Ok (JNum (math_floor (num_div (to_number x) (Fin 1000)))));
  o ← js_array_map data (kline_field 1);
  h ← js_array_map data (kline_field 2);
  l ← js_array_map data (kline_field 3);
  c ← js_array_map data (kline_field 4);
  v ← js_array_map data (kline_field 5);
  Ok (JObj [("s", JStr "ok"); ("t", t); ("o", o); ("h", h); ("l", l); ("c", c); ("v", v);
            ("source", JStr "BINANCE_REST")]).

Definition binance_candles_error : jsval := JObj [("s", JStr "error")].

(** [getCandles(symbol, interval, limit = 180)]: the default applies when
    [limit] is [undefined]. *)
Definition binance_getCandles (symbol : string) (interval limit0 : jsval) : prog jsval :=
  let limit := match limit0 with JUndef => js_num 180 | _ => limit0 end in
  let cacheKey := "candle:binance:" +:+ symbol +:+ ":" +:+ js_to_string interval
                  +:+ ":" +:+ js_to_string limit in
  cached ← getCacheConfig cacheKey;
  match cache_hit cached with
  | Some payloadJson => lift (JSON_parse payloadJson)
  | None =>
      try_catch
        (res ← fetch (BINANCE_REST_BASE_URL +:+ "/api/v3/klines?symbol=" +:+ symbol
                      +:+ "&interval=" +:+ js_to_string interval
                      +:+ "&limit=" +:+ js_to_string limit);
         if negb (res_ok res) then Throw "Failed to fetch Binance klines" else
         data ← lift (JSON_parse (res_body res));
         payload ← lift (binance_klines_payload data);
         setCacheConfig cacheKey (JSON_stringify payload) 300 "BINANCE_REST";;
         mret payload)
        (fun _ => mret binance_candles_error)
  end.

(* ================================================================== *)
(** ** MarketData, the aggregation router (market-data.ts) *)

(** Modelled from the spec: [FinnhubService.getQuote] and
    [FinnhubService.getCandles] (src/server/src/services/finnhub.ts is not
    among the sources).  The secondary provider either answers a value in
    its own wire shape or fails; which one is decided by the world. *)
Definition finnhub_getQuote (symbol : string) : prog jsval := FinnhubQuote symbol lift.
Definition finnhub_getCandles (symbol resolution : string) (from to : Z) : prog jsval :=
  FinnhubCandles symbol resolution from to lift.

(** The quote object built from a Finnhub quote [fhQuote]. *)
Definition finnhub_quote_payload (symbol : string) (fhQuote : jsval) : result jsval :=
  c ← js_get fhQuote "c";
  d ← js_get fhQuote "d";
  dp ← js_get fhQuote "dp";
  t ← js_get fhQuote "t";
  Ok (JObj [("symbol", JStr symbol); ("assetType", JStr "STOCK");
            ("price", JNum (parseFloat c)); ("changeAbs", JNum (parseFloat d));
            ("changePct", JNum (parseFloat dp)); ("ts", t);
            ("source", JStr "FINNHUB"); ("isStale", JBool false)]).

Definition md_getQuote (symbol : string) (assetType : asset_type) : prog jsval :=
  match assetType with
  | CRYPTO => binance_getQuote symbol
  | STOCK =>
      try_catch (av_getQuote symbol)
        (fun _ =>
           fhQuote ← finnhub_getQuote symbol;
           if negb (js_truthy fhQuote) then Throw "All providers failed for quote" else
           d ← lift (js_get fhQuote "d");
           if js_is_null d then Throw "All providers failed for quote" else
           lift (finnhub_quote_payload symbol fhQuote))
  end.

(** The object literal [map] of [getCandles] for CRYPTO. *)
Definition crypto_range_map : jsval :=
  JObj [("1d", JObj [("interval", JStr "15m"); ("limit", js_num 96)]);
        ("1w", JObj [("interval", JStr "1h"); ("limit", js_num 168)]);
        ("1m", JObj [("interval", JStr "4h"); ("limit", js_num 180)]);
        ("3m", JObj [("interval", JStr "1d"); ("limit", js_num 90)]);
        ("6m", JObj [("interval", JStr "1d"); ("limit", js_num 180)]);
        ("1y", JObj [("interval", JStr "1d"); ("limit", js_num 365)])].

(** [map[rangeStr] || map['6m']]. *)
Definition crypto_config (rangeStr : string) : result jsval :=
  c ← js_get crypto_range_map rangeStr;
  if js_truthy c then Ok c else js_get crypto_range_map "6m".

Definition md_getCandles (symbol : string) (assetType : asset_type) (rangeStr : string)
  : prog jsval :=
  match assetType with
  | CRYPTO =>
      config ← lift (crypto_config rangeStr);
      interval ← lift (js_get config "interval");
      limit ← lift (js_get config "limit");
      binance_getCandles symbol interval limit
  | STOCK =>
      let isIntraday := existsb (String.eqb rangeStr) ["1d"; "1w"] in
      try_catch (av_getCandles symbol isIntraday)
        (fun _ =>
           now ← date_now;
           let to := now / 1000 in
           let '(from, resolution) :=
             if String.eqb rangeStr "1m" then (to - 30 * 24 * 60 * 60, "D")
             else if String.eqb rangeStr "1y" then (to - 365 * 24 * 60 * 60, "D")
             else if isIntraday then (to - 7 * 24 * 60 * 60, "60")
             else (to - 180 * 24 * 60 * 60, "D") in
           finnhub_getCandles symbol resolution from to)
  end.

(* ================================================================== *)
(** ** PriceHistoryService, the history store (price-history.ts) *)

(** [!candles || candles.s !== 'ok' || !candles.c || candles.c.length === 0]:
    the series carries no data. *)
Definition no_candle_data (candles : jsval) : result bool :=
  if negb (js_truthy candles) then Ok true else
  s ← js_get candles "s";
  if negb (js_str_eq s "ok") then Ok true else
  c ← js_get candles "c";
  if negb (js_truthy c) then Ok true else
  len ← js_get c "length";
  Ok (match len with JNum n => num_eqb n 0 | _ => false end).

(** The calendar day of [candles.t[i]] (epoch seconds):
    [new Date(t * 1000).toISOString().split('T')[0]]. *)
Definition candle_day (t : jsval) : result Z :=
  iso_day_of_ms (num_mul (to_number t) (Fin 1000)).

(** [candles.f[i]]. *)
Definition candle_field (candles : jsval) (f : string) (i : nat) : result jsval :=
  a ← js_get candles f; js_index a i.

(** The body of the [try] of one iteration of the backfill loop: the
    upsert of candle [i] under the day [date] computed before the [try]. *)
Definition backfill_one (symbol : string) (assetType : asset_type) (candles : jsval)
  (i : nat) (date : Z) : prog unit :=
  o ← lift (candle_field candles "o" i);
  h ← lift (candle_field candles "h" i);
  l ← lift (candle_field candles "l" i);
  c ← lift (candle_field candles "c" i);
  v ← lift (candle_field candles "v" i);
  r ← HistoryUpsert symbol date
        {| hu_open := o; hu_high := h; hu_low := l; hu_close := c; hu_volume := v;
           hu_assetType := Some assetType |}
        {| hc_symbol := symbol; hc_assetType := assetType; hc_date := date;
           hc_open := o; hc_high := h; hc_low := l; hc_close := c; hc_volume := v |}
        Ret;
  lift r.

(** [for (i = 0; i < candles.t.length; i++) { const date = ...; try { ...;
    inserted++ } catch {} }]: the day of [candles.t[i]] is computed outside
    the [try], so its failure ends the loop and rejects. *)
Fixpoint backfill_loop (symbol : string) (assetType : asset_type) (candles : jsval)
  (idx : list nat) (inserted : Z) : prog Z :=
  match idx with
  | [] => Ret inserted
  | i :: idx' =>
      ti ← lift (candle_field candles "t" i);
      date ← lift (candle_day ti);
      ok ← try_catch (backfill_one symbol assetType candles i date;; mret true)
                     (fun _ => mret false);
      backfill_loop symbol assetType candles idx' (if (ok : bool) then inserted + 1 else inserted)
  end.

(** Number of iterations of [i < n] for [i = 0, 1, ...]. *)
Definition loop_count (n : jsval) : nat :=
  match to_number n with
  | Fin q => Z.to_nat (Qceiling q)
  | NaN => 0%nat
  end.

Definition backfillSymbol (symbol : string) (assetType : asset_type) : prog Z :=
  candles ← md_getCandles symbol assetType "2y";
  empty ← lift (no_candle_data candles);
  if (empty : bool) then mret 0 else
  t ← lift (js_get candles "t");
  tlen ← lift (js_get t "length");
  backfill_loop symbol assetType candles (seq 0 (loop_count tlen)) 0.

Definition appendLatestCandle (symbol : string) (assetType : asset_type) : prog unit :=
  try_catch
    (candles ← md_getCandles symbol assetType "5d";
     empty ← lift (no_candle_data candles);
     if (empty : bool) then mret tt else
     c ← lift (js_get candles "c");
     clen ← lift (js_get c "length");
     let i := JNum (num_sub (to_number clen) (Fin 1)) in
     t ← lift (js_get candles "t");
     ti ← lift (js_get t (js_to_string i));
     date ← lift (candle_day ti);
     let field_at f := (a ← js_get candles f; js_get a (js_to_string i)) in
     o ← lift (field_at "o"); h ← lift (field_at "h"); l ← lift (field_at "l");
     cl ← lift (field_at "c"); v ← lift (field_at "v");
     r ← HistoryUpsert symbol date
           {| hu_open := o; hu_high := h; hu_low := l; hu_close := cl; hu_volume := v;
              hu_assetType := None |}
           {| hc_symbol := symbol; hc_assetType := assetType; hc_date := date;
              hc_open := o; hc_high := h; hc_low := l; hc_close := cl; hc_volume := v |}
           Ret;
     lift r)
    (fun _ => mret tt).





(** [prisma.priceHistory.count({ where: { symbol } })] of
    [PriceHistoryService.getCandleCount]. *)
Definition getCandleCount (rows : list PriceHistoryRow) (symbol : string) : nat :=
  length (List.filter (fun r => String.eqb (ph_symbol r) symbol) rows).

(* ================================================================== *)
(** ** The screener-run admin route (POST /api/admin/screener/run) *)

Inductive route_reply :=
| ReplyError (status : Z) (error : string)
| ReplyQueued (universe : string).

(** The handler body after request validation ([universe] is one of the
    enum's names). *)
Definition screener_run (universe date : string) : prog route_reply :=
  jobState ← JobFind universe Ret;
  let queue := Spawn (TScreener universe date) (Ret (ReplyQueued universe)) in
  match jobState with
  | Some j =>
      if String.eqb (js_status j) "RUNNING"
      then mret (ReplyError 409 "Screener job is already running for this universe.")
      else queue
  | None => queue
  end.

(** One atomic step of a program: its next awaited call is performed
    (as [run] performs it) and the continuation is returned. *)
Definition step1 {A} (p : prog A) (w : World) : option (prog A * World) :=
  match p with
  | Ret _ | Throw _ => None
  | CacheGet key k => Some (k (view_entry (w_now w) <$> w_cache w !! key), w)
  | CacheSet key pl ttl src k =>
      Some (k, set_cache (<[key := {| ce_payloadJson := pl;
                                      ce_expiresAt := w_now w + ttl * 1000;
                                      ce_source := src |}]> (w_cache w)) w)
  | Fetch url k => Some (k (w_fetch w url), add_call (CallFetch url) w)
  | FinnhubQuote s k => Some (k (w_finnhub_quote w s), add_call (CallFinnhubQuote s) w)
  | FinnhubCandles s r a b k =>
      Some (k (w_finnhub_candles w s r a b), add_call (CallFinnhubCandles s r a b) w)
  | DateNow k => Some (k (w_now w), w)
  | HotGet key k => Some (k (w_hot w !! key), w)
  | HotSet key v k => Some (k, set_hot (<[key := v]> (w_hot w)) w)
  | TrackSymbol s k => Some (k, track_symbol s w)
  | HistoryFind s c k => Some (k (history_find (w_history w) s c), w)
  | HistoryUpsert s d u c k =>
      match w_db_faults w with
      | true :: fs => Some (k (Err "PrismaClientKnownRequestError"),
                            set_history (w_history w) fs w)
      | fs =>
          match prisma_upsert (w_history w) s d u c with
          | Ok rows => Some (k (Ok tt), set_history rows (tail fs) w)
          | Err e => Some (k (Err e), set_history (w_history w) (tail fs) w)
          end
      end
  | JobFind i k => Some (k (w_jobs w !! i), w)
  | Spawn t k => Some (k, add_spawned t w)
  end.

Definition set_spawned (ts : list task) (w : World) : World :=
  {| w_now := w_now w; w_cache := w_cache w; w_fetch := w_fetch w;
     w_finnhub_quote := w_finnhub_quote w; w_finnhub_candles := w_finnhub_candles w;
     w_hot := w_hot w; w_tracked := w_tracked w; w_history := w_history w;
     w_db_faults := w_db_faults w; w_jobs := w_jobs w; w_spawned := ts;
     w_calls := w_calls w |}.

(** Modelled from the spec: the start of a queued screener job
    ([ScreenerService.runScreenerJob], not among the sources) persists
    RUNNING for its universe before its body runs. *)
Definition screener_job_start (universe : string) (w : World) : World :=
  set_jobs (<[universe := {| js_id := universe; js_status := "RUNNING" |}]> (w_jobs w)) w.

(** Concurrent requests on the single-threaded event loop: at each step
    either one handler performs its next awaited call, or a queued
    screener job starts. *)
Inductive sys_step : World * list (prog route_reply) -> World * list (prog route_reply) -> Prop :=
| sys_thread w ths i p p' w' :
    ths !! i = Some p -> step1 p w = Some (p', w') ->
    sys_step (w, ths) (w', <[i := p']> ths)
| sys_job_start w ths pre post u d :
    w_spawned w = app pre (TScreener u d :: post) ->
    sys_step (w, ths) (screener_job_start u (set_spawned (app pre post) w), ths).

(* ================================================================== *)
(** ** The maintenance script (scripts/fix-crypto-assets.ts) *)

(** A row of the Prisma [asset] table: the key [symbol] and the column
    [type], the two columns the script reads or writes. *)
Record Asset := {
  a_symbol : string;
  a_type : string
}.

(** [s.endsWith(suffix)]. *)
Definition js_ends_with (s suffix : string) : bool :=
  let n := String.length s in
  let m := String.length suffix in
  Nat.leb m n && String.eqb (substring (n - m) m s) suffix.

(** [prisma.asset.update({ where: { symbol }, data: { type } })]: the row
    of the key gets the new type; a missing row is an error. *)
Definition asset_update (table : list Asset) (symbol type : string) : result (list Asset) :=
  if existsb (fun a => String.eqb (a_symbol a) symbol) table
  then Ok (map (fun a => if String.eqb (a_symbol a) symbol
                         then {| a_symbol := a_symbol a; a_type := type |}
                         else a) table)
  else Err "PrismaClientKnownRequestError".

(** The [for] loop of [main] over the rows [findMany] returned, with the
    table as it is and the counter [updated]. *)
Fixpoint fix_loop (assets table : list Asset) (updated : Z) : result (list Asset * Z) :=
  match assets with
  | [] => Ok (table, updated)
  | asset :: rest =>
      if js_ends_with (a_symbol asset) "USDT"
         && negb (String.eqb (a_type asset) "CRYPTO")
      then table' ← asset_update table (a_symbol asset) "CRYPTO";
           fix_loop rest table' (updated + 1)
      else fix_loop rest table updated
  end.

(** [main]: the table after the script, and the count it reports. *)
Definition fix_crypto_main (table : list Asset) : result (list Asset * Z) :=
  fix_loop table table 0.

(* ================================================================== *)
(** ** Concrete worlds, used to exercise the statements *)

(** A world where every outbound call fails and every store is empty. *)
Definition offline_world : World :=
  {| w_now := 1700000000000; w_cache := ∅; w_fetch := fun _ => Err "TypeError: fetch failed";
     w_finnhub_quote := fun _ => Err "Finnhub unavailable";
     w_finnhub_candles := fun _ _ _ _ => Err "Finnhub unavailable";
     w_hot := ∅; w_tracked := []; w_history := []; w_db_faults := [];
     w_jobs := ∅; w_spawned := []; w_calls := [] |}.

Definition with_cache (key : string) (e : CacheEntry) (w : World) : World :=
  set_cache (<[key := e]> (w_cache w)) w.

Definition with_hot (key : string) (v : jsval) (w : World) : World :=
  set_hot (<[key := v]> (w_hot w)) w.

Definition sample_quote : jsval :=
  JObj [("symbol", JStr "BTCUSDT"); ("assetType", JStr "CRYPTO");
        ("price", js_num 40000); ("changeAbs", js_num 240); ("changePct", js_num 1);
        ("ts", js_num 1700000000000); ("source", JStr "BINANCE_WS"); ("isStale", JBool false)].

(** A persisted quote written 1000 s before [offline_world]'s clock with a
    60 s time to live: present but stale. *)
Definition stale_quote_entry (payload : json_text) : CacheEntry :=
  {| ce_payloadJson := payload; ce_expiresAt := 1699999060000; ce_source := "BINANCE_REST" |}.







(* ================================================================== *)
(** ** Notions used by the statements *)

(** The day of candle [i] that the backfill loop computes before its
    [try]: [new Date(candles.t[i] * 1000).toISOString().split('T')[0]]. *)
Definition candle_date (candles : jsval) (i : nat) : result Z :=
  ti ← candle_field candles "t" i; candle_day ti.

(** A fresh entry: the flag [isStale] derived by the store is false. *)
Definition entry_fresh (w : World) (key : string) (e : CacheEntry) : Prop :=
  w_cache w !! key = Some e /\ cv_isStale (view_entry (w_now w) e) = false.

(** The cache key of [BinanceProvider.getCandles]. *)
Definition binance_candle_key (symbol : string) (interval limit0 : jsval) : string :=
  let limit := match limit0 with JUndef => js_num 180 | _ => limit0 end in
  "candle:binance:" +:+ symbol +:+ ":" +:+ js_to_string interval +:+ ":" +:+ js_to_string limit.

Definition fresh_candle_entry : CacheEntry :=
  {| ce_payloadJson := Serialized (JObj [("s", JStr "ok")]);
     ce_expiresAt := 1700000300000; ce_source := "BINANCE_REST" |}.

(** Every [quote:...] entry of the hot cache is a quote object: the only
    writer of such keys, the stream's [message] handler, stores the
    objects it builds. *)
Definition hot_quotes_objects (w : World) : Prop :=
  forall s v, w_hot w !! ("quote:" +:+ s) = Some v -> exists fs, v = JObj fs.

(** The interval and limit [MarketData.getCandles] hands to Binance for a
    CRYPTO range token. *)
Definition crypto_request (rangeStr : string) : result (jsval * jsval) :=
  config ← crypto_config rangeStr;
  interval ← js_get config "interval";
  limit ← js_get config "limit";
  Ok (interval, limit).

Definition ALL_PROVIDERS_FAILED : string := "All providers failed for quote".

Definition binance_quote_url (symbol : string) : string :=
  BINANCE_REST_BASE_URL +:+ "/api/v3/ticker/24hr?symbol=" +:+ symbol.

(** What the REST call of [getQuote] yields: the quote it builds, or the
    error that makes it fail (rejected fetch, non-OK status, unparsable
    body, unreadable body). *)
Definition binance_rest_result (r : result response) : result jsval :=
  match r with
  | Err e => Err e
  | Ok res =>
      if negb (res_ok res) then Err ("Binance REST HTTP " +:+ pretty (res_status res))
      else data ← JSON_parse (res_body res); binance_rest_payload data
  end.

(** The catch branch of [getQuote]. *)
Definition binance_stale_result (cached : option CachedView) : result jsval :=
  match cached with
  | Some c => stale ← JSON_parse (cv_payloadJson c); js_set stale "isStale" (JBool true)
  | None => Err "No crypto quote available"
  end.

Definition binance_klines_url (symbol : string) (interval limit0 : jsval) : string :=
  let limit := match limit0 with JUndef => js_num 180 | _ => limit0 end in
  BINANCE_REST_BASE_URL +:+ "/api/v3/klines?symbol=" +:+ symbol
  +:+ "&interval=" +:+ js_to_string interval +:+ "&limit=" +:+ js_to_string limit.

(** What the REST part of [getCandles] builds, or the error that sends it
    to the [catch]. *)
Definition binance_klines_result (r : result response) : result jsval :=
  match r with
  | Err e => Err e
  | Ok res =>
      if negb (res_ok res) then Err "Failed to fetch Binance klines"
      else data ← JSON_parse (res_body res); binance_klines_payload data
  end.

Definition av_quote_url (symbol : string) : string :=
  ALPHAVANTAGE_BASE_URL +:+ "?function=GLOBAL_QUOTE&symbol=" +:+ symbol
  +:+ "&apikey=" +:+ ALPHAVANTAGE_API_KEY.

(** What the network part of AlphaVantage [getQuote] yields: the quote it
    builds, or the error it throws. *)
Definition av_quote_result (symbol : string) (r : result response) : result jsval :=
  res ← r;
  if negb (res_ok res) then Err ("AV Error " +:+ pretty (res_status res)) else
  data ← JSON_parse (res_body res);
  limited ← av_limit_reached data;
  if (limited : bool) then Err "API limit reached" else
  quote ← js_get data "Global Quote";
  if negb (js_truthy quote) then Err "No quote data" else
  price ← js_get quote "05. price";
  if negb (js_truthy price) then Err "No quote data" else
  av_quote_payload symbol quote.

Definition av_candles_url (symbol : string) (isIntraday : bool) : string :=
  ALPHAVANTAGE_BASE_URL +:+ "?function="
  +:+ (if isIntraday then "TIME_SERIES_INTRADAY" else "TIME_SERIES_DAILY_ADJUSTED")
  +:+ "&symbol=" +:+ symbol +:+ "&outputsize=full"
  +:+ (if isIntraday then "&interval=60min" else "") +:+ "&apikey=" +:+ ALPHAVANTAGE_API_KEY.

(** The same for AlphaVantage [getCandles]; the HTTP status is not read. *)
Definition av_candles_result (r : result response) : result jsval :=
  res ← r;
  data ← JSON_parse (res_body res);
  limited ← av_limit_reached data;
  if (limited : bool) then Err "API limit reached" else
  keys ← object_keys data;
  match List.find (fun k => str_includes k "Time Series") keys with
  | None => Err "Invalid AV format"
  | Some timeSeriesKey => ts ← js_get data timeSeriesKey; av_candles_payload ts
  end.

Definition av_overview_url (symbol : string) : string :=
  ALPHAVANTAGE_BASE_URL +:+ "?function=OVERVIEW&symbol=" +:+ symbol
  +:+ "&apikey=" +:+ ALPHAVANTAGE_API_KEY.

(** The same for AlphaVantage [getOverview]; the HTTP status is not read. *)
Definition av_overview_result (r : result response) : result jsval :=
  res ← r;
  data ← JSON_parse (res_body res);
  limited ← av_limit_reached data;
  if (limited : bool) then Err "API limit reached" else
  keys ← object_keys data;
  if Nat.eqb (length keys) 0 then Err "No overview found" else Ok data.

(** The world after a successful network read: the call recorded, then the
    payload written through under [key] for [ttl] seconds. *)
Definition write_through (url key : string) (payload : jsval) (ttl : Z) (src : string)
  (w : World) : World :=
  let w1 := add_call (CallFetch url) w in
  set_cache (<[key := {| ce_payloadJson := JSON_stringify payload;
                         ce_expiresAt := w_now w + ttl * 1000;
                         ce_source := src |}]> (w_cache w1)) w1.

(** The world [dt] milliseconds later. *)
Definition advance_clock (dt : Z) (w : World) : World :=
  {| w_now := w_now w + dt; w_cache := w_cache w; w_fetch := w_fetch w;
     w_finnhub_quote := w_finnhub_quote w; w_finnhub_candles := w_finnhub_candles w;
     w_hot := w_hot w; w_tracked := w_tracked w; w_history := w_history w;
     w_db_faults := w_db_faults w; w_jobs := w_jobs w; w_spawned := w_spawned w;
     w_calls := w_calls w |}.

(** A program that never writes the price history: it contains no
    [HistoryUpsert]. *)
Inductive no_upsert {A} : prog A -> Prop :=
| nu_ret a : no_upsert (Ret a)
| nu_throw e : no_upsert (Throw e)
| nu_cache_get key k : (forall x, no_upsert (k x)) -> no_upsert (CacheGet key k)
| nu_cache_set key pl ttl src k : no_upsert k -> no_upsert (CacheSet key pl ttl src k)
| nu_fetch url k : (forall x, no_upsert (k x)) -> no_upsert (Fetch url k)
| nu_finnhub_quote s k : (forall x, no_upsert (k x)) -> no_upsert (FinnhubQuote s k)
| nu_finnhub_candles s r a b k :
    (forall x, no_upsert (k x)) -> no_upsert (FinnhubCandles s r a b k)
| nu_date_now k : (forall x, no_upsert (k x)) -> no_upsert (DateNow k)
| nu_hot_get key k : (forall x, no_upsert (k x)) -> no_upsert (HotGet key k)
| nu_hot_set key v k : no_upsert k -> no_upsert (HotSet key v k)
| nu_track s k : no_upsert k -> no_upsert (TrackSymbol s k)
| nu_find s c k : (forall x, no_upsert (k x)) -> no_upsert (HistoryFind s c k)
| nu_job i k : (forall x, no_upsert (k x)) -> no_upsert (JobFind i k)
| nu_spawn t k : no_upsert k -> no_upsert (Spawn t k).

(** The rows the script's test selects, and a row as the script leaves
    it. *)
Definition asset_needs_fix (a : Asset) : bool :=
  js_ends_with (a_symbol a) "USDT" && negb (String.eqb (a_type a) "CRYPTO").

Definition asset_fixed (a : Asset) : Asset :=
  if js_ends_with (a_symbol a) "USDT" then {| a_symbol := a_symbol a; a_type := "CRYPTO" |}
  else a.

(** The table after the types of the symbols selected by [S] are set to
    [CRYPTO]. *)
Definition upd_with (S : string -> bool) (t : list Asset) : list Asset :=
  map (fun a => if S (a_symbol a) then {| a_symbol := a_symbol a; a_type := "CRYPTO" |} else a) t.

(** The epoch second [Math.floor(new Date(d).getTime() / 1000)] of a
    date key (0 for a key that does not parse). *)
Definition date_key_second (d : string) : Z :=
  match date_get_time (JStr d) with Fin x => Qfloor (x / 1000) | NaN => 0 end.

(* ================================================================== *)
(** ** Sample answers of the network *)

(** A world whose network answers the listed URLs (status 200) and fails
    every other request. *)
Definition serving_world (answers : list (string * json_text)) : World :=
  {| w_now := w_now offline_world; w_cache := ∅;
     w_fetch := fun url => match assoc url answers with
                           | Some body => Ok {| res_ok := true; res_status := 200; res_body := body |}
                           | None => Err "TypeError: fetch failed"
                           end;
     w_finnhub_quote := w_finnhub_quote offline_world;
     w_finnhub_candles := w_finnhub_candles offline_world;
     w_hot := ∅; w_tracked := []; w_history := []; w_db_faults := [];
     w_jobs := ∅; w_spawned := []; w_calls := [] |}.

Definition av_sample_quote_body : json_text :=
  Serialized (JObj [("Global Quote",
    JObj [("05. price", JStr "150"); ("09. change", JStr "2");
          ("10. change percent", JStr "1%"); ("07. latest trading day", JStr "2023-11-14")])]).

Definition av_sample_daily_body : json_text :=
  Serialized (JObj [("Time Series (Daily)",
    JObj [("2023-11-14", JObj [("1. open", JStr "10"); ("2. high", JStr "12"); ("3. low", JStr "9");
                               ("4. close", JStr "11"); ("6. volume", JStr "1000")])])]).

Definition av_sample_overview_body : json_text :=
  Serialized (JObj [("Symbol", JStr "IBM"); ("PERatio", JStr "None")]).

Definition binance_sample_klines_body : json_text :=
  Serialized (JArr [JArr [js_num 1699920000000; JStr "10"; JStr "12"; JStr "9"; JStr "11"; JStr "1000"]]).

Definition binance_sample_ticker_body : json_text :=
  Serialized (JObj [("symbol", JStr "BTCUSDT"); ("lastPrice", JStr "40000");
                    ("priceChange", JStr "240"); ("priceChangePercent", JStr "1");
                    ("closeTime", js_num 1700000000000)]).

Definition sample_network : World :=
  serving_world [(av_quote_url "IBM", av_sample_quote_body);
                 (av_candles_url "IBM" false, av_sample_daily_body);
                 (av_overview_url "IBM", av_sample_overview_body);
                 (binance_klines_url "BTCUSDT" (JStr "1d") JUndef, binance_sample_klines_body);
                 (binance_quote_url "BTCUSDT", binance_sample_ticker_body)].

(** The quote and the one-day series the sample network yields. *)
Definition ibm_av_quote : jsval :=
  JObj [("symbol", JStr "IBM"); ("assetType", JStr "STOCK"); ("price", js_num 150);
        ("changeAbs", js_num 2); ("changePct", js_num 1); ("ts", js_num 1699920000000);
        ("source", JStr "ALPHAVANTAGE"); ("isStale", JBool false)].

Definition one_day_series (src : string) : jsval :=
  JObj [("s", JStr "ok"); ("t", JArr [js_num 1699920000]); ("o", JArr [js_num 10]);
        ("h", JArr [js_num 12]); ("l", JArr [js_num 9]); ("c", JArr [js_num 11]);
        ("v", JArr [js_num 1000]); ("source", JStr src)].

Definition btc_rest_quote : jsval :=
  JObj [("symbol", JStr "BTCUSDT"); ("assetType", JStr "CRYPTO"); ("price", js_num 40000);
        ("changeAbs", js_num 240); ("changePct", js_num 1); ("ts", js_num 1700000000000);
        ("source", JStr "BINANCE_REST"); ("isStale", JBool false)].

(** A [24hrTicker] stream message and the quote the handler builds. *)
Definition ticker_message : jsval :=
  JObj [("e", JStr "24hrTicker"); ("E", js_num 1700000000000); ("s", JStr "BTCUSDT");
        ("c", JStr "40000"); ("p", JStr "240"); ("P", JStr "1")].

Definition ticker_quote : jsval :=
  JObj [("symbol", JStr "BTCUSDT"); ("assetType", JStr "CRYPTO"); ("price", js_num 40000);
        ("changeAbs", js_num 240); ("changePct", js_num 1); ("ts", js_num 1700000000000);
        ("source", JStr "BINANCE_WS"); ("isStale", JBool false)].

(** A world whose secondary provider answers a two-day daily series for
    every request, and whose other outbound calls fail. *)
Definition two_day_world : World :=
  {| w_now := w_now offline_world; w_cache := ∅; w_fetch := w_fetch offline_world;
     w_finnhub_quote := w_finnhub_quote offline_world;
     w_finnhub_candles := fun _ _ _ _ =>
       Ok (JObj [("s", JStr "ok"); ("t", JArr [js_num 1699920000; js_num 1700006400]);
                 ("o", JArr [js_num 10; js_num 11]); ("h", JArr [js_num 12; js_num 13]);
                 ("l", JArr [js_num 9; js_num 10]); ("c", JArr [js_num 11; js_num 12]);
                 ("v", JArr [js_num 1000; js_num 1100])]);
     w_hot := ∅; w_tracked := []; w_history := []; w_db_faults := [];
     w_jobs := ∅; w_spawned := []; w_calls := [] |}.


(** A daily time series as AlphaVantage sends it, the latest day first. *)
Definition two_key_series : list (string * jsval) :=
  [("2023-11-15", JObj [("1. open", JStr "11"); ("2. high", JStr "13"); ("3. low", JStr "10");
                        ("4. close", JStr "12"); ("6. volume", JStr "1100")]);
   ("2023-11-14", JObj [("1. open", JStr "10"); ("2. high", JStr "12"); ("3. low", JStr "9");
                        ("4. close", JStr "11"); ("6. volume", JStr "1000")])].

(* ================================================================== *)
(** ** Laws of the interpreter *)

Lemma run_bind {A B} (p : prog A) (f : A -> prog B) (w : World) :
  run (prog_bind p f) w =
  match run p w with
  | (Ok a, w') => run (f a) w'
  | (Err e, w') => (Err e, w')
  end.
Proof.
  revert w. induction p; intros w; simpl; auto.
  destruct (w_db_faults w) as [|[] fs]; simpl; auto.
  - destruct (prisma_upsert _ _ _ _ _); auto.
  - destruct (prisma_upsert _ _ _ _ _); auto.
Qed.

Lemma run_try_catch {A} (p : prog A) (h : string -> prog A) (w : World) :
  run (try_catch p h) w =
  match run p w with
  | (Ok a, w') => (Ok a, w')
  | (Err e, w') => run (h e) w'
  end.
Proof.
  revert w. induction p; intros w; simpl; auto.
  destruct (w_db_faults w) as [|[] fs]; simpl; auto.
  - destruct (prisma_upsert _ _ _ _ _); auto.
  - destruct (prisma_upsert _ _ _ _ _); auto.
Qed.

Lemma run_mbind {A B} (p : prog A) (f : A -> prog B) (w : World) :
  run (p ≫= f) w =
  match run p w with
  | (Ok a, w') => run (f a) w'
  | (Err e, w') => (Err e, w')
  end.
Proof. apply run_bind. Qed.

Lemma result_bind_Ok {A B} (a : A) (f : A -> result B) : (Ok a ≫= f) = f a.
Proof. reflexivity. Qed.

Lemma result_bind_Err {A B} (e : string) (f : A -> result B) : (Err e ≫= f) = Err e.
Proof. reflexivity. Qed.

Lemma run_lift {A} (r : result A) (w : World) : run (lift r) w = (r, w).
Proof. destruct r; reflexivity. Qed.

Lemma run_cache_get {A} key (k : option CachedView -> prog A) w :
  run (CacheGet key k) w = run (k (view_entry (w_now w) <$> w_cache w !! key)) w.
Proof. reflexivity. Qed.

Lemma cache_hit_fresh w key e :
  entry_fresh w key e ->
  cache_hit (view_entry (w_now w) <$> w_cache w !! key) = Some (ce_payloadJson e).
Proof. intros [H1 H2]. rewrite H1. simpl. simpl in H2. rewrite H2. reflexivity. Qed.

(* ================================================================== *)
(** ** Provider adapters: cache hits *)

(** C2: for each adapter operation (AlphaVantage [getQuote], [getCandles],
    [getOverview] and Binance [getCandles]), when the cache holds an entry
    for the operation's key whose derived [isStale] flag is false, the
    operation returns [JSON.parse] of the cached payload and leaves the
    world as it was: no outbound call is recorded and nothing is written.
    Only [isStale] is consulted: the statement holds for every entry,
    whatever its expiry time, source or content. *)
Theorem adapters_cache_hit_no_fetch (w : World) (symbol : string) :
  (forall e, entry_fresh w ("quote:av:" +:+ symbol) e ->
     run (av_getQuote symbol) w = (JSON_parse (ce_payloadJson e), w)) /\
  (forall (isIntraday : bool) e,
     entry_fresh w ("candle:av:" +:+ symbol +:+ ":"
                    +:+ (if isIntraday then "intraday" else "daily")) e ->
     run (av_getCandles symbol isIntraday) w = (JSON_parse (ce_payloadJson e), w)) /\
  (forall e, entry_fresh w ("overview:av:" +:+ symbol) e ->
     run (av_getOverview symbol) w = (JSON_parse (ce_payloadJson e), w)) /\
  (forall interval limit e, entry_fresh w (binance_candle_key symbol interval limit) e ->
     run (binance_getCandles symbol interval limit) w = (JSON_parse (ce_payloadJson e), w)).
Proof.
  split; [|split; [|split]]; intros *; intros H.
  - unfold av_getQuote. rewrite run_mbind. unfold getCacheConfig.
    rewrite run_cache_get. cbn [run]. rewrite (cache_hit_fresh _ _ _ H). apply run_lift.
  - unfold av_getCandles. rewrite run_mbind. unfold getCacheConfig.
    rewrite run_cache_get. cbn [run]. rewrite (cache_hit_fresh _ _ _ H). apply run_lift.
  - unfold av_getOverview. rewrite run_mbind. unfold getCacheConfig.
    rewrite run_cache_get. cbn [run]. rewrite (cache_hit_fresh _ _ _ H). apply run_lift.
  - unfold binance_getCandles. rewrite run_mbind. unfold getCacheConfig.
    rewrite run_cache_get. cbn [run]. unfold binance_candle_key in H.
    rewrite (cache_hit_fresh _ _ _ H). apply run_lift.
Qed.

Lemma adapters_cache_hit_no_fetch_witness :
  entry_fresh (with_cache "candle:binance:BTCUSDT:1h:168" fresh_candle_entry offline_world)
    (binance_candle_key "BTCUSDT" (JStr "1h") (js_num 168)) fresh_candle_entry /\
  run (binance_getCandles "BTCUSDT" (JStr "1h") (js_num 168))
      (with_cache "candle:binance:BTCUSDT:1h:168" fresh_candle_entry offline_world)
  = (Ok (JObj [("s", JStr "ok")]),
     with_cache "candle:binance:BTCUSDT:1h:168" fresh_candle_entry offline_world).
Proof.
  assert (H : entry_fresh (with_cache "candle:binance:BTCUSDT:1h:168" fresh_candle_entry
                             offline_world)
                (binance_candle_key "BTCUSDT" (JStr "1h") (js_num 168)) fresh_candle_entry)
    by (split; vm_compute; reflexivity).
  split; [exact H|].
  exact (proj2 (proj2 (proj2 (adapters_cache_hit_no_fetch _ "BTCUSDT")))
           (JStr "1h") (js_num 168) fresh_candle_entry H).
Defined.

(* ================================================================== *)
(** ** The hot cache of the live feed *)

Lemma track_symbol_hot s w : w_hot (track_symbol s w) = w_hot w.
Proof. unfold track_symbol. destruct (existsb _ _); reflexivity. Qed.

Lemma dbwrite_not_quote x s : "dbwrite:" +:+ x <> "quote:" +:+ s.
Proof. discriminate. Qed.

Lemma binance_ws_payload_obj parsed q :
  binance_ws_payload parsed = Ok q -> exists fs, q = JObj fs.
Proof.
  unfold binance_ws_payload.
  destruct (js_get parsed "s"); [|discriminate]. cbn.
  destruct (js_get parsed "c"); [|discriminate]. cbn.
  destruct (js_get parsed "p"); [|discriminate]. cbn.
  destruct (js_get parsed "P"); [|discriminate]. cbn.
  destruct (js_get parsed "E"); [|discriminate]. cbn.
  intros H. injection H as <-. eauto.
Qed.

Lemma hot_quotes_objects_set_other w k v :
  hot_quotes_objects w -> (forall s, k <> "quote:" +:+ s) ->
  hot_quotes_objects (set_hot (<[k := v]> (w_hot w)) w).
Proof.
  intros H Hk s v'. simpl. rewrite lookup_insert_ne; [apply H|].
  intros Heq. apply (Hk s). exact Heq.
Qed.

Lemma hot_quotes_objects_set_obj w k fs :
  hot_quotes_objects w -> hot_quotes_objects (set_hot (<[k := JObj fs]> (w_hot w)) w).
Proof.
  intros H s v'. simpl. destruct (decide (k = "quote:" +:+ s)) as [->|Hne].
  - rewrite lookup_insert_eq. intros [= <-]. eauto.
  - rewrite lookup_insert_ne by congruence. apply H.
Qed.

(** The stream's [message] handler keeps the hot cache's quote entries
    objects. *)
Lemma ws_on_message_hot_quotes (data : json_text) (w : World) :
  hot_quotes_objects w -> hot_quotes_objects (snd (run (ws_on_message data) w)).
Proof.
  intros Hw. unfold ws_on_message. rewrite run_try_catch.
  rewrite run_mbind, run_lift. destruct (JSON_parse data) as [parsed|]; [|exact Hw].
  rewrite run_mbind, run_lift. destruct (js_get parsed "e") as [e|]; [|exact Hw].
  destruct (js_str_eq e "24hrTicker"); [|exact Hw].
  rewrite run_mbind, run_lift. destruct (js_get parsed "s") as [sym|]; [|exact Hw].
  rewrite run_mbind, run_lift.
  destruct (binance_ws_payload parsed) as [payload|] eqn:Hp; [|exact Hw].
  destruct (binance_ws_payload_obj _ _ Hp) as [fs ->].
  rewrite run_mbind. cbn [run].
  set (w1 := set_hot _ w).
  assert (H1 : hot_quotes_objects w1) by (apply hot_quotes_objects_set_obj, Hw).
  clearbody w1.
  rewrite run_mbind. cbn [run]. unfold date_now. cbn [run].
  rewrite run_mbind. cbn [run].
  match goal with |- context [if num_gt0 ?x then _ else _] => destruct (num_gt0 x) end.
  - rewrite run_mbind. unfold setCacheConfig. cbn [run].
    rewrite run_mbind. cbn [run].
    apply hot_quotes_objects_set_other; [exact H1|].
    intros s. apply dbwrite_not_quote.
  - exact H1.
Qed.

(** C10: when the hot cache holds an entry for [quote:<symbol>], Binance
    [getQuote] returns that entry exactly as stored.  The only change to
    the world is the tracking of the symbol: no outbound call is made,
    nothing is read from or written to the persisted cache (the statement
    holds whatever the persisted cache and the network hold), and there
    is no check of the entry's age. *)
Theorem binance_getQuote_hot_hit (w : World) (symbol : string) (v : jsval) :
  hot_quotes_objects w ->
  w_hot w !! ("quote:" +:+ symbol) = Some v ->
  run (binance_getQuote symbol) w = (Ok v, track_symbol symbol w).
Proof.
  intros Hinv Hv. destruct (Hinv _ _ Hv) as [fs ->].
  unfold binance_getQuote. rewrite run_mbind. cbn [run].
  rewrite run_mbind. cbn [run]. rewrite track_symbol_hot, Hv. reflexivity.
Qed.

Lemma binance_getQuote_hot_hit_witness :
  (hot_quotes_objects (with_hot "quote:BTCUSDT" sample_quote offline_world) /\
   w_hot (with_hot "quote:BTCUSDT" sample_quote offline_world) !! ("quote:" +:+ "BTCUSDT")
   = Some sample_quote) /\
  run (binance_getQuote "BTCUSDT") (with_hot "quote:BTCUSDT" sample_quote offline_world)
  = (Ok sample_quote, track_symbol "BTCUSDT" (with_hot "quote:BTCUSDT" sample_quote offline_world)).
Proof.
  assert (Hinv : hot_quotes_objects (with_hot "quote:BTCUSDT" sample_quote offline_world)).
  { unfold with_hot. apply hot_quotes_objects_set_obj. intros s v. simpl.
    rewrite lookup_empty. discriminate. }
  assert (Hv : w_hot (with_hot "quote:BTCUSDT" sample_quote offline_world)
                 !! ("quote:" +:+ "BTCUSDT") = Some sample_quote) by reflexivity.
  split; [split; assumption|].
  exact (binance_getQuote_hot_hit _ "BTCUSDT" sample_quote Hinv Hv).
Defined.

(* ================================================================== *)
(** ** The CRYPTO range table of [MarketData.getCandles] *)

Lemma md_getCandles_crypto symbol rangeStr interval limit :
  crypto_request rangeStr = Ok (interval, limit) ->
  md_getCandles symbol CRYPTO rangeStr = binance_getCandles symbol interval limit.
Proof.
  unfold crypto_request, md_getCandles.
  destruct (crypto_config rangeStr) as [config|]; [|discriminate]. cbn.
  destruct (js_get config "interval") as [i|]; [|discriminate]. cbn.
  destruct (js_get config "limit") as [l|]; [|discriminate]. cbn.
  intros [= -> ->]. reflexivity.
Qed.

(** X11: the table, and the fall-back to the [6m] entry for every token that is
    neither a table key nor a member inherited from [Object.prototype]. *)
Lemma crypto_request_table (rangeStr : string) :
  crypto_request "1d" = Ok (JStr "15m", js_num 96) /\
  crypto_request "1w" = Ok (JStr "1h", js_num 168) /\
  crypto_request "1m" = Ok (JStr "4h", js_num 180) /\
  crypto_request "3m" = Ok (JStr "1d", js_num 90) /\
  crypto_request "6m" = Ok (JStr "1d", js_num 180) /\
  crypto_request "1y" = Ok (JStr "1d", js_num 365) /\
  (assoc rangeStr [("1d", tt); ("1w", tt); ("1m", tt); ("3m", tt); ("6m", tt); ("1y", tt)]
   = None ->
   object_proto_get rangeStr = JUndef ->
   crypto_request rangeStr = crypto_request "6m").
Proof.
  split; [reflexivity|]. split; [reflexivity|]. split; [reflexivity|].
  split; [reflexivity|]. split; [reflexivity|]. split; [reflexivity|].
  intros Hnot Hproto. unfold crypto_request, crypto_config.
  assert (Hget : js_get crypto_range_map rangeStr = Ok JUndef).
  { unfold js_get, crypto_range_map. cbn [assoc]. cbn [assoc] in Hnot.
    repeat match goal with
           | H : context [if String.eqb ?a ?b then _ else _] |- _ =>
               destruct (String.eqb a b); [discriminate H|]
           end.
    rewrite Hproto. reflexivity. }
  rewrite Hget. reflexivity.
Qed.

Lemma crypto_request_table_witness :
  crypto_request "5y" = crypto_request "6m".
Proof.
  exact (proj2 (proj2 (proj2 (proj2 (proj2 (proj2 (crypto_request_table "5y"))))))
           eq_refl eq_refl).
Defined.

(** C4 (defect): the table is an object literal, so a token naming a member
    of [Object.prototype] such as [constructor] finds that inherited
    function instead of missing; the [6m] fall-back is not taken and
    Binance is asked for interval [undefined] with the default limit 180
    (cache key [candle:binance:BTCUSDT:undefined:180]), where the [6m]
    mapping asks for interval [1d] and limit 180. *)
Theorem crypto_candles_constructor_token :
  crypto_request "constructor" = Ok (JUndef, JUndef) /\
  crypto_request "6m" = Ok (JStr "1d", js_num 180) /\
  w_calls (snd (run (md_getCandles "BTCUSDT" CRYPTO "constructor") offline_world))
  = [CallFetch "https://api.binance.com/api/v3/klines?symbol=BTCUSDT&interval=undefined&limit=180"] /\
  w_calls (snd (run (md_getCandles "BTCUSDT" CRYPTO "6m") offline_world))
  = [CallFetch "https://api.binance.com/api/v3/klines?symbol=BTCUSDT&interval=1d&limit=180"].
Proof. vm_compute. repeat split. Qed.

(* ================================================================== *)
(** ** STOCK quotes: primary, then secondary *)

Lemma js_get_truthy_ok v k : js_truthy v = true -> exists x, js_get v k = Ok x.
Proof. destruct v; simpl; try discriminate; intros _; repeat destruct (_ : bool); eauto.
  all: try (destruct (assoc k fields); eauto).
  all: try (destruct (List.find _ _); eauto; destruct (existsb _ _); eauto).
Qed.

Lemma finnhub_quote_payload_shape symbol fh :
  js_truthy fh = true ->
  exists q, finnhub_quote_payload symbol fh = Ok q /\
    js_get q "symbol" = Ok (JStr symbol) /\ js_get q "source" = Ok (JStr "FINNHUB") /\
    js_get q "isStale" = Ok (JBool false).
Proof.
  intros Ht. unfold finnhub_quote_payload.
  destruct (js_get_truthy_ok fh "c" Ht) as [c ->].
  destruct (js_get_truthy_ok fh "d" Ht) as [d ->].
  destruct (js_get_truthy_ok fh "dp" Ht) as [dp ->].
  destruct (js_get_truthy_ok fh "t" Ht) as [t ->].
  eexists. split; [reflexivity|]. repeat split.
Qed.

(** C3 (as amended): when AlphaVantage [getQuote] fails, [MarketData.getQuote]
    for a STOCK makes one call to the secondary provider (Finnhub) and
    - returns the quote re-normalized from Finnhub's answer, tagged
      [source = 'FINNHUB'], when that answer is truthy with [d !== null];
    - throws the single error [All providers failed for quote] when the
      answer is falsy or its [d] is [null];
    - rejects with Finnhub's own failure, unchanged, when the Finnhub call
      fails.
    No partial quote is returned in the failing cases. *)
Theorem md_getQuote_stock_fallback (w w1 : World) (symbol e : string) :
  run (av_getQuote symbol) w = (Err e, w1) ->
  let w2 := add_call (CallFinnhubQuote symbol) w1 in
  (forall e', w_finnhub_quote w1 symbol = Err e' ->
     run (md_getQuote symbol STOCK) w = (Err e', w2)) /\
  (forall fh, w_finnhub_quote w1 symbol = Ok fh ->
     (js_truthy fh = false \/ js_get fh "d" = Ok JNull) ->
     run (md_getQuote symbol STOCK) w = (Err ALL_PROVIDERS_FAILED, w2)) /\
  (forall fh, w_finnhub_quote w1 symbol = Ok fh ->
     js_truthy fh = true -> js_get fh "d" <> Ok JNull ->
     exists q, run (md_getQuote symbol STOCK) w = (Ok q, w2) /\
       finnhub_quote_payload symbol fh = Ok q /\
       js_get q "source" = Ok (JStr "FINNHUB") /\ js_get q "symbol" = Ok (JStr symbol)).
Proof.
  intros Hav w2. unfold md_getQuote. rewrite run_try_catch, Hav.
  unfold finnhub_getQuote. split; [|split].
  - intros e' Hf. rewrite run_mbind. cbn [run]. rewrite Hf. reflexivity.
  - intros fh Hf Hcase. rewrite run_mbind. cbn [run]. rewrite Hf. cbn [run lift].
    destruct (js_truthy fh) eqn:Ht; [|reflexivity]. cbn [negb].
    destruct Hcase as [Hc|Hd]; [discriminate|].
    rewrite run_mbind, run_lift, Hd. reflexivity.
  - intros fh Hf Ht Hd. rewrite run_mbind. cbn [run]. rewrite Hf. cbn [run lift].
    rewrite Ht. cbn [negb].
    destruct (js_get_truthy_ok fh "d" Ht) as [d Hd'].
    destruct (finnhub_quote_payload_shape symbol fh Ht) as (q & Hq & Hs & Hsrc & _).
    exists q. rewrite run_mbind, run_lift, Hd'.
    destruct d; try (exfalso; apply Hd; exact Hd'); cbn [js_is_null];
      rewrite run_lift, Hq; auto.
Qed.

(** The primary fails offline (its fetch is rejected) and so does the
    secondary. *)
Lemma av_getQuote_offline :
  run (av_getQuote "AAPL") offline_world
  = (Err "TypeError: fetch failed", add_call (CallFetch
       "https://www.alphavantage.co/query?function=GLOBAL_QUOTE&symbol=AAPL&apikey=")
       offline_world).
Proof. reflexivity. Qed.

Lemma md_getQuote_stock_fallback_witness :
  run (av_getQuote "AAPL") offline_world
  = (Err "TypeError: fetch failed", add_call (CallFetch
       "https://www.alphavantage.co/query?function=GLOBAL_QUOTE&symbol=AAPL&apikey=")
       offline_world) /\
  run (md_getQuote "AAPL" STOCK) offline_world
  = (Err "Finnhub unavailable",
     add_call (CallFinnhubQuote "AAPL") (add_call (CallFetch
       "https://www.alphavantage.co/query?function=GLOBAL_QUOTE&symbol=AAPL&apikey=")
       offline_world)).
Proof.
  split; [exact av_getQuote_offline|].
  exact (proj1 (md_getQuote_stock_fallback _ _ "AAPL" _ av_getQuote_offline)
           "Finnhub unavailable" eq_refl).
Defined.

(** C3 as stated fails: with both providers failing, the caller receives
    the secondary provider's own error, not the aggregate failure. *)
Lemma md_getQuote_secondary_error_not_aggregate :
  fst (run (av_getQuote "AAPL") offline_world) = Err "TypeError: fetch failed" /\
  w_finnhub_quote offline_world "AAPL" = Err "Finnhub unavailable" /\
  fst (run (md_getQuote "AAPL" STOCK) offline_world) = Err "Finnhub unavailable" /\
  fst (run (md_getQuote "AAPL" STOCK) offline_world) <> Err ALL_PROVIDERS_FAILED.
Proof. vm_compute. split; [reflexivity|]. split; [reflexivity|]. split; [reflexivity|].
  discriminate. Qed.

(* ================================================================== *)
(** ** Binance quotes past the hot cache *)

Lemma track_symbol_fields s w :
  w_cache (track_symbol s w) = w_cache w /\ w_fetch (track_symbol s w) = w_fetch w /\
  w_now (track_symbol s w) = w_now w /\ w_calls (track_symbol s w) = w_calls w /\
  w_hot (track_symbol s w) = w_hot w.
Proof. unfold track_symbol. destruct (existsb _ _); repeat split. Qed.

(** The REST part of [getQuote] once the persisted cache has no fresh
    entry: one fetch, then the built quote is written through, or the
    catch branch answers. *)
Lemma binance_quote_rest_miss (w : World) (symbol : string) :
  let key := "quote:" +:+ symbol in
  let cached := view_entry (w_now w) <$> w_cache w !! key in
  cache_hit cached = None ->
  let w1 := add_call (CallFetch (binance_quote_url symbol)) w in
  run (binance_quote_rest symbol) w =
  match binance_rest_result (w_fetch w (binance_quote_url symbol)) with
  | Ok payload =>
      (Ok payload, set_cache (<[key := {| ce_payloadJson := JSON_stringify payload;
                                          ce_expiresAt := w_now w1 + 60 * 1000;
                                          ce_source := "BINANCE_REST" |}]> (w_cache w1)) w1)
  | Err _ => (binance_stale_result cached, w1)
  end.
Proof.
  intros key cached Hmiss w1. unfold binance_quote_rest. rewrite run_mbind.
  unfold getCacheConfig. rewrite run_cache_get. cbn [run]. fold key. fold cached.
  rewrite Hmiss. rewrite run_try_catch. unfold fetch. rewrite run_mbind. cbn [run].
  fold (binance_quote_url symbol). fold w1.
  unfold binance_rest_result.
  destruct (w_fetch w (binance_quote_url symbol)) as [res|err]; cbn [run lift].
  - destruct (res_ok res); cbn [negb].
    + rewrite run_mbind, run_lift. destruct (JSON_parse (res_body res)) as [data|pe]; cbn [run lift].
      * rewrite run_mbind, run_lift, result_bind_Ok.
        destruct (binance_rest_payload data) as [payload|pe]; cbn [run lift].
        -- unfold setCacheConfig. rewrite run_mbind. cbn [run]. reflexivity.
        -- unfold binance_stale_result. destruct cached as [c|]; [|reflexivity].
           rewrite run_mbind, run_lift. destruct (JSON_parse _); [apply run_lift|reflexivity].
      * unfold binance_stale_result. destruct cached as [c|]; [|reflexivity].
        rewrite run_mbind, run_lift. destruct (JSON_parse _); [apply run_lift|reflexivity].
    + cbn [run]. unfold binance_stale_result. destruct cached as [c|]; [|reflexivity].
      rewrite run_mbind, run_lift. destruct (JSON_parse _); [apply run_lift|reflexivity].
  - unfold binance_stale_result. destruct cached as [c|]; [|reflexivity].
    rewrite run_mbind, run_lift. destruct (JSON_parse _); [apply run_lift|reflexivity].
Qed.

(** C5 (amended): when the hot cache has no [quote:<symbol>] entry and the
    persisted cache has none or only a stale one, Binance [getQuote] makes
    exactly one outbound call, the REST [ticker/24hr] request.  If that
    request succeeds the built quote is returned; if it fails and a stale
    entry exists whose payload is a JSON object, that object is returned
    with [isStale] set to [true], and if the payload of that stale entry
    does not parse, the call fails with the parse error; if it fails and
    there is no persisted entry, the call fails with [No crypto quote
    available]. *)
Theorem binance_getQuote_rest_fallback (w : World) (symbol : string) :
  let key := "quote:" +:+ symbol in
  let cached := view_entry (w_now w) <$> w_cache w !! key in
  w_hot w !! key = None ->
  cache_hit cached = None ->
  let (r, w') := run (binance_getQuote symbol) w in
  w_calls w' = app (w_calls w) [CallFetch (binance_quote_url symbol)] /\
  match binance_rest_result (w_fetch w (binance_quote_url symbol)) with
  | Ok payload => r = Ok payload
  | Err _ =>
      match cached with
      | Some c => (forall fs, cv_payloadJson c = Serialized (JObj fs) ->
                   r = Ok (JObj (set_field "isStale" (JBool true) fs))) /\
                  (forall raw, cv_payloadJson c = Malformed raw ->
                   r = Err "SyntaxError: Unexpected token in JSON")
      | None => r = Err "No crypto quote available"
      end
  end.
Proof.
  intros key cached Hhot Hmiss.
  destruct (track_symbol_fields symbol w) as [Hc [Hf [Hn [Hcl Hh]]]].
  unfold binance_getQuote. rewrite run_mbind. cbn [run].
  rewrite run_mbind. cbn [run]. rewrite Hh. fold key. rewrite Hhot.
  pose proof (binance_quote_rest_miss (track_symbol symbol w) symbol) as Hrest.
  cbv zeta in Hrest. rewrite Hc, Hn, Hf in Hrest. fold key cached in Hrest.
  rewrite (Hrest Hmiss). clear Hrest.
  destruct (binance_rest_result (w_fetch w (binance_quote_url symbol))) as [payload|e].
  - cbn. rewrite Hcl. split; reflexivity.
  - cbn [w_calls add_call]. rewrite Hcl. split; [reflexivity|].
    unfold binance_stale_result. destruct cached as [c|]; [|reflexivity].
    split; [intros fs Hfs | intros raw Hraw]; [rewrite Hfs | rewrite Hraw]; reflexivity.
Qed.

Lemma binance_getQuote_rest_fallback_witness :
  (w_hot (with_cache "quote:BTCUSDT" (stale_quote_entry (Serialized sample_quote)) offline_world)
     !! ("quote:" +:+ "BTCUSDT") = None /\
   cache_hit (view_entry (w_now (with_cache "quote:BTCUSDT"
                                   (stale_quote_entry (Serialized sample_quote)) offline_world))
               <$> w_cache (with_cache "quote:BTCUSDT"
                              (stale_quote_entry (Serialized sample_quote)) offline_world)
               !! ("quote:" +:+ "BTCUSDT")) = None) /\
  fst (run (binance_getQuote "BTCUSDT")
         (with_cache "quote:BTCUSDT" (stale_quote_entry (Serialized sample_quote)) offline_world))
  = Ok (JObj (set_field "isStale" (JBool true)
               match sample_quote with JObj fs => fs | _ => [] end)).
Proof.
  assert (H1 : w_hot (with_cache "quote:BTCUSDT" (stale_quote_entry (Serialized sample_quote))
                        offline_world) !! ("quote:" +:+ "BTCUSDT") = None) by reflexivity.
  assert (H2 : cache_hit (view_entry (w_now (with_cache "quote:BTCUSDT"
                                   (stale_quote_entry (Serialized sample_quote)) offline_world))
               <$> w_cache (with_cache "quote:BTCUSDT"
                              (stale_quote_entry (Serialized sample_quote)) offline_world)
               !! ("quote:" +:+ "BTCUSDT")) = None) by reflexivity.
  split; [split; assumption|].
  pose proof (binance_getQuote_rest_fallback _ "BTCUSDT" H1 H2) as H.
  destruct (run (binance_getQuote "BTCUSDT") _) as [r w'] eqn:Hrun.
  destruct H as [_ H]. vm_compute in H. cbn [fst]. apply (proj1 H). reflexivity.
Defined.

(** C5 counterexample: a persisted entry exists (stale) but its payload
    does not parse; the REST call fails.  [getQuote] rejects with the
    parse error of the catch branch, although neither of the conditions
    for a hard failure named by the claim (no persisted entry) holds. *)
Lemma binance_getQuote_stale_malformed_rejects :
  w_cache (with_cache "quote:BTCUSDT" (stale_quote_entry (Malformed "{")) offline_world)
    !! "quote:BTCUSDT" <> None /\
  fst (run (binance_getQuote "BTCUSDT")
         (with_cache "quote:BTCUSDT" (stale_quote_entry (Malformed "{")) offline_world))
  = Err "SyntaxError: Unexpected token in JSON".
Proof. split; [discriminate | vm_compute; reflexivity]. Qed.

(* ================================================================== *)
(** ** History Store [getCandles] *)








(* ================================================================== *)
(** ** Upserts of the History Store *)


Lemma apply_update_key o h l c v a r : row_key (apply_update o h l c v a r) = row_key r.
Proof. reflexivity. Qed.









(** One turn of the backfill loop: the day of candle [i] is computed
    first, and its failure rejects the loop at once; the upsert runs inside
    the [try], its failure is swallowed and only its success counts. *)
Lemma backfill_loop_cons (symbol : string) (assetType : asset_type) (candles : jsval)
  (i : nat) (idx : list nat) (inserted : Z) (w : World) :
  run (backfill_loop symbol assetType candles (i :: idx) inserted) w =
  match candle_date candles i with
  | Err e => (Err e, w)
  | Ok date =>
      match run (backfill_one symbol assetType candles i date) w with
      | (Ok _, w1) => run (backfill_loop symbol assetType candles idx (inserted + 1)) w1
      | (Err _, w1) => run (backfill_loop symbol assetType candles idx inserted) w1
      end
  end.
Proof.
  cbn [backfill_loop]. unfold candle_date.
  rewrite run_mbind, run_lift. destruct (candle_field candles "t" i) as [ti|e]; [|reflexivity].
  rewrite result_bind_Ok.
  rewrite run_mbind, run_lift. destruct (candle_day ti) as [date|e]; [|reflexivity].
  cbn [run lift]. rewrite run_mbind, run_try_catch, run_mbind.
  destruct (run (backfill_one symbol assetType candles i date) w) as [[u|e] w1]; reflexivity.
Qed.



(** An iteration of the backfill loop whose upsert fails leaves the table
    as it was; one that succeeds changed it by a successful upsert of a
    row keyed by the symbol and the day. *)
Lemma backfill_one_effect (symbol : string) (assetType : asset_type) (candles : jsval)
  (i : nat) (date : Z) (w : World) :
  match run (backfill_one symbol assetType candles i date) w with
  | (Ok _, w') => exists u c, hc_symbol c = symbol /\ hc_date c = date /\
                  prisma_upsert (w_history w) symbol date u c = Ok (w_history w')
  | (Err _, w') => w_history w' = w_history w
  end.
Proof.
  unfold backfill_one.
  rewrite run_mbind, run_lift. destruct (candle_field candles "o" i) as [o|e]; [|reflexivity].
  rewrite run_mbind, run_lift. destruct (candle_field candles "h" i) as [h|e]; [|reflexivity].
  rewrite run_mbind, run_lift. destruct (candle_field candles "l" i) as [l|e]; [|reflexivity].
  rewrite run_mbind, run_lift. destruct (candle_field candles "c" i) as [c|e]; [|reflexivity].
  rewrite run_mbind, run_lift. destruct (candle_field candles "v" i) as [v|e]; [|reflexivity].
  rewrite run_mbind. cbn [run].
  destruct (w_db_faults w) as [|[] fs]; [| reflexivity |];
    (destruct (prisma_upsert _ _ _ _ _) as [rows|e] eqn:Hup; cbn [run lift];
     [do 2 eexists; split; [|split; [|exact Hup]]; reflexivity | reflexivity]).
Qed.




(* ================================================================== *)
(** ** The quote objects *)









(* ================================================================== *)
(** ** Binance [getCandles] after the cache check *)

(** C9 (amended): Binance [getCandles] answers a value whenever the
    cache does not hold a fresh entry whose payload fails to parse: the
    parsed payload of a fresh entry, else the series built from the REST
    response, and [{s: 'error'}] on any failure of the fetch, of the HTTP
    status, of the body or of the building of the series. *)
Theorem binance_getCandles_total (w : World) (symbol : string) (interval limit0 : jsval) :
  let cached := view_entry (w_now w) <$> w_cache w !! binance_candle_key symbol interval limit0 in
  (forall raw, cache_hit cached <> Some (Malformed raw)) ->
  fst (run (binance_getCandles symbol interval limit0) w) =
  Ok (match cache_hit cached with
      | Some (Serialized v) => v
      | _ =>
          match binance_klines_result (w_fetch w (binance_klines_url symbol interval limit0)) with
          | Ok payload => payload
          | Err _ => binance_candles_error
          end
      end).
Proof.
  intros cached Hok. unfold binance_getCandles. rewrite run_mbind.
  unfold getCacheConfig. rewrite run_cache_get. cbn [run].
  change (view_entry (w_now w) <$> w_cache w !! _) with cached.
  destruct (cache_hit cached) as [[v|raw]|] eqn:Hc.
  - rewrite run_lift. reflexivity.
  - exfalso. exact (Hok raw eq_refl).
  - rewrite run_try_catch. unfold fetch. rewrite run_mbind. cbn [run].
    change (BINANCE_REST_BASE_URL +:+ _) with (binance_klines_url symbol interval limit0).
    unfold binance_klines_result.
    destruct (w_fetch w (binance_klines_url symbol interval limit0)) as [res|err];
      cbn [run lift]; [|reflexivity].
    destruct (res_ok res); cbn [negb run]; [|reflexivity].
    rewrite run_mbind, run_lift.
    destruct (JSON_parse (res_body res)) as [data|pe]; cbn [run lift]; [|reflexivity].
    rewrite run_mbind, run_lift, result_bind_Ok.
    destruct (binance_klines_payload data) as [payload|pe]; cbn [run lift]; [|reflexivity].
    unfold setCacheConfig. rewrite run_mbind. cbn [run]. reflexivity.
Qed.

Lemma binance_getCandles_total_witness :
  (forall raw, cache_hit (view_entry (w_now offline_world) <$>
                 w_cache offline_world !! binance_candle_key "BTCUSDT" (JStr "1h") (js_num 168))
               <> Some (Malformed raw)) /\
  fst (run (binance_getCandles "BTCUSDT" (JStr "1h") (js_num 168)) offline_world)
  = Ok binance_candles_error.
Proof.
  assert (H : forall raw, cache_hit (view_entry (w_now offline_world) <$>
                 w_cache offline_world !! binance_candle_key "BTCUSDT" (JStr "1h") (js_num 168))
               <> Some (Malformed raw)) by (intros raw; vm_compute; discriminate).
  split; [exact H|].
  rewrite (binance_getCandles_total offline_world "BTCUSDT" (JStr "1h") (js_num 168) H).
  vm_compute. reflexivity.
Defined.

(** C9 counterexample: a fresh cached entry under the candle key whose
    payload does not parse.  The [JSON.parse] of the cache hit runs
    before the [try], so [getCandles] rejects, and so does the router's
    CRYPTO candle path that calls it. *)
Lemma binance_getCandles_fresh_malformed_rejects :
  fst (run (binance_getCandles "BTCUSDT" (JStr "1h") (js_num 168))
         (with_cache "candle:binance:BTCUSDT:1h:168"
            {| ce_payloadJson := Malformed "{"; ce_expiresAt := 1700000300000;
               ce_source := "BINANCE_REST" |} offline_world))
  = Err "SyntaxError: Unexpected token in JSON" /\
  fst (run (md_getCandles "BTCUSDT" CRYPTO "1w")
         (with_cache "candle:binance:BTCUSDT:1h:168"
            {| ce_payloadJson := Malformed "{"; ce_expiresAt := 1700000300000;
               ce_source := "BINANCE_REST" |} offline_world))
  = Err "SyntaxError: Unexpected token in JSON".
Proof. split; vm_compute; reflexivity. Qed.

(* ================================================================== *)
(** ** The screener-run admin route *)

(** C1 (amended): the route reads the JobState of the universe once and
    answers 409 exactly when that state is RUNNING; otherwise it queues
    the job and answers that it is queued.  It writes no JobState itself:
    the transition to RUNNING belongs to the job, a later and separate
    step, so the check and the transition are not one atomic update. *)
Theorem screener_run_spec (w : World) (universe date : string) :
  run (screener_run universe date) w =
  match w_jobs w !! universe with
  | Some j =>
      if String.eqb (js_status j) "RUNNING"
      then (Ok (ReplyError 409 "Screener job is already running for this universe."), w)
      else (Ok (ReplyQueued universe), add_spawned (TScreener universe date) w)
  | None => (Ok (ReplyQueued universe), add_spawned (TScreener universe date) w)
  end /\
  w_jobs (snd (run (screener_run universe date) w)) = w_jobs w.
Proof.
  assert (Hrun : run (screener_run universe date) w =
    match w_jobs w !! universe with
    | Some j =>
        if String.eqb (js_status j) "RUNNING"
        then (Ok (ReplyError 409 "Screener job is already running for this universe."), w)
        else (Ok (ReplyQueued universe), add_spawned (TScreener universe date) w)
    | None => (Ok (ReplyQueued universe), add_spawned (TScreener universe date) w)
    end).
  { unfold screener_run. rewrite run_mbind. cbn [run].
    destruct (w_jobs w !! universe) as [j|]; [|reflexivity].
    destruct (String.eqb (js_status j) "RUNNING"); reflexivity. }
  split; [exact Hrun|]. rewrite Hrun.
  destruct (w_jobs w !! universe) as [j|]; [|reflexivity].
  destruct (String.eqb (js_status j) "RUNNING"); reflexivity.
Qed.

(** C1 counterexample: two requests for the same universe, with no job
    running.  Both read the JobState before either queued job starts, so
    both are granted and two screener jobs are queued. *)
Lemma screener_run_both_granted :
  exists w',
    rtc sys_step
      (offline_world, [screener_run "SP500" "2024-01-02"; screener_run "SP500" "2024-01-02"])
      (w', [Ret (ReplyQueued "SP500"); Ret (ReplyQueued "SP500")]) /\
    w_spawned w' = [TScreener "SP500" "2024-01-02"; TScreener "SP500" "2024-01-02"].
Proof.
  eexists. split.
  - eapply rtc_l; [eapply (sys_thread _ _ 0); reflexivity|].
    eapply rtc_l; [eapply (sys_thread _ _ 1); reflexivity|].
    eapply rtc_l; [eapply (sys_thread _ _ 0); reflexivity|].
    eapply rtc_l; [eapply (sys_thread _ _ 1); reflexivity|].
    apply rtc_refl.
  - reflexivity.
Qed.

(* ================================================================== *)
(** ** Further laws: network reads, the tracked set and the history table *)

Lemma run_mret {A} (a : A) (w : World) : run (mret a) w = (Ok a, w).
Proof. reflexivity. Qed.

(** Steps through a program whose calls are all pure: each [lift]ed
    result and each tested boolean of the program is split, together
    with the same test on the other side. *)
Ltac crunch :=
  repeat first
    [ rewrite run_mbind | rewrite run_try_catch | rewrite run_mret
    | rewrite result_bind_Ok | rewrite result_bind_Err
    | progress cbn [run negb]
    | match goal with
      | |- context [run (lift ?x) _] => rewrite (run_lift x); destruct x
      | |- context [run (if ?b then _ else _) _] => destruct b
      | |- context [run (match ?x with Some _ => _ | None => _ end) _] => destruct x
      end ].

Lemma run_now {A} (p : prog A) (w : World) : w_now (snd (run p w)) = w_now w.
Proof.
  revert w. induction p; intros w; cbn [run];
    repeat match goal with
           | IH : forall w, w_now (snd (run _ w)) = w_now w |- _ => rewrite IH
           | IH : forall x w, w_now (snd (run (_ x) w)) = w_now w |- _ => rewrite IH
           end; try reflexivity.
  - unfold track_symbol. destruct (existsb _ _); reflexivity.
  - match goal with H : forall x w, _ |- _ => rename H into IHk end.
    destruct (w_db_faults w) as [|[] fs]; [| |];
      try (destruct (prisma_upsert _ _ _ _ _)); rewrite IHk; reflexivity.
Qed.

Lemma write_through_hit (url key : string) (payload : jsval) (ttl : Z) (src : string)
  (w : World) (dt : Z) :
  0 <= dt <= ttl * 1000 ->
  cache_hit (view_entry (w_now (advance_clock dt (write_through url key payload ttl src w)))
               <$> w_cache (advance_clock dt (write_through url key payload ttl src w)) !! key)
  = Some (JSON_stringify payload).
Proof.
  intros Hdt. cbn [advance_clock write_through set_cache add_call w_now w_cache].
  rewrite lookup_insert_eq. cbn. replace (w_now w + dt >? w_now w + ttl * 1000) with false.
  - reflexivity.
  - symmetry. rewrite Z.gtb_ltb. apply Z.ltb_ge. lia.
Qed.

Lemma av_getQuote_miss (w : World) (symbol : string) :
  cache_hit (view_entry (w_now w) <$> w_cache w !! ("quote:av:" +:+ symbol)) = None ->
  run (av_getQuote symbol) w =
  match av_quote_result symbol (w_fetch w (av_quote_url symbol)) with
  | Ok payload =>
      (Ok payload, write_through (av_quote_url symbol) ("quote:av:" +:+ symbol) payload 900
                     "ALPHAVANTAGE" w)
  | Err e => (Err e, add_call (CallFetch (av_quote_url symbol)) w)
  end.
Proof.
  intros Hmiss. unfold av_getQuote. rewrite run_mbind.
  unfold getCacheConfig. rewrite run_cache_get. cbn [run]. rewrite Hmiss.
  rewrite run_try_catch. unfold fetch. rewrite run_mbind. cbn [run].
  fold (av_quote_url symbol). unfold av_quote_result.
  destruct (w_fetch w (av_quote_url symbol)) as [res|err]; cbn [run lift]; [|reflexivity].
  rewrite result_bind_Ok. unfold setCacheConfig, write_through.
  crunch; reflexivity.
Qed.

Lemma av_getCandles_miss (w : World) (symbol : string) (isIntraday : bool) :
  let key := "candle:av:" +:+ symbol +:+ ":" +:+ (if isIntraday then "intraday" else "daily") in
  cache_hit (view_entry (w_now w) <$> w_cache w !! key) = None ->
  run (av_getCandles symbol isIntraday) w =
  match av_candles_result (w_fetch w (av_candles_url symbol isIntraday)) with
  | Ok payload =>
      (Ok payload, write_through (av_candles_url symbol isIntraday) key payload
                     (if isIntraday then 1800 else 86400) "ALPHAVANTAGE" w)
  | Err e => (Err e, add_call (CallFetch (av_candles_url symbol isIntraday)) w)
  end.
Proof.
  intros key Hmiss. unfold av_getCandles. rewrite run_mbind.
  unfold getCacheConfig. rewrite run_cache_get. cbn [run]. fold key. rewrite Hmiss.
  rewrite run_try_catch. unfold fetch. rewrite run_mbind. cbn [run].
  fold (av_candles_url symbol isIntraday). unfold av_candles_result.
  destruct (w_fetch w (av_candles_url symbol isIntraday)) as [res|err]; cbn [run lift];
    [|reflexivity].
  rewrite result_bind_Ok. unfold setCacheConfig, write_through.
  crunch; reflexivity.
Qed.

Lemma av_getOverview_miss (w : World) (symbol : string) :
  cache_hit (view_entry (w_now w) <$> w_cache w !! ("overview:av:" +:+ symbol)) = None ->
  run (av_getOverview symbol) w =
  match av_overview_result (w_fetch w (av_overview_url symbol)) with
  | Ok data =>
      (Ok data, write_through (av_overview_url symbol) ("overview:av:" +:+ symbol) data
                  (86400 * 7) "ALPHAVANTAGE" w)
  | Err e => (Err e, add_call (CallFetch (av_overview_url symbol)) w)
  end.
Proof.
  intros Hmiss. unfold av_getOverview. rewrite run_mbind.
  unfold getCacheConfig. rewrite run_cache_get. cbn [run]. rewrite Hmiss.
  rewrite run_try_catch. unfold fetch. rewrite run_mbind. cbn [run].
  fold (av_overview_url symbol). unfold av_overview_result.
  destruct (w_fetch w (av_overview_url symbol)) as [res|err]; cbn [run lift]; [|reflexivity].
  rewrite result_bind_Ok. unfold setCacheConfig, write_through.
  crunch; reflexivity.
Qed.

Lemma binance_getCandles_miss (w : World) (symbol : string) (interval limit0 : jsval) :
  cache_hit (view_entry (w_now w) <$> w_cache w !! binance_candle_key symbol interval limit0)
  = None ->
  run (binance_getCandles symbol interval limit0) w =
  match binance_klines_result (w_fetch w (binance_klines_url symbol interval limit0)) with
  | Ok payload =>
      (Ok payload, write_through (binance_klines_url symbol interval limit0)
                     (binance_candle_key symbol interval limit0) payload 300 "BINANCE_REST" w)
  | Err _ =>
      (Ok binance_candles_error, add_call (CallFetch (binance_klines_url symbol interval limit0)) w)
  end.
Proof.
  intros Hmiss. unfold binance_getCandles. rewrite run_mbind.
  unfold getCacheConfig. rewrite run_cache_get. cbn [run].
  change ("candle:binance:" +:+ _) with (binance_candle_key symbol interval limit0).
  rewrite Hmiss. rewrite run_try_catch. unfold fetch. rewrite run_mbind. cbn [run].
  change (BINANCE_REST_BASE_URL +:+ _) with (binance_klines_url symbol interval limit0).
  unfold binance_klines_result.
  destruct (w_fetch w (binance_klines_url symbol interval limit0)) as [res|err];
    cbn [run lift]; [|reflexivity].
  unfold setCacheConfig, write_through. crunch; reflexivity.
Qed.

Lemma track_symbol_tracked (s : string) (w : World) : In s (w_tracked (track_symbol s w)).
Proof.
  unfold track_symbol. destruct (existsb (String.eqb s) (w_tracked w)) eqn:He.
  - apply existsb_exists in He as [x [Hx Hs]]. apply String.eqb_eq in Hs. subst x. exact Hx.
  - cbn. apply in_or_app. right. left. reflexivity.
Qed.

Lemma track_symbol_present (s : string) (w : World) :
  In s (w_tracked w) -> track_symbol s w = w.
Proof.
  intros Hin. unfold track_symbol.
  replace (existsb (String.eqb s) (w_tracked w)) with true; [reflexivity|].
  symmetry. apply existsb_exists. exists s. split; [exact Hin|]. apply String.eqb_refl.
Qed.

Lemma no_upsert_bind {A B} (p : prog A) (f : A -> prog B) :
  no_upsert p -> (forall a, no_upsert (f a)) -> no_upsert (p ≫= f).
Proof.
  intros Hp Hf. induction Hp; cbn; try constructor; auto.
Qed.

Lemma no_upsert_try {A} (p : prog A) (h : string -> prog A) :
  no_upsert p -> (forall e, no_upsert (h e)) -> no_upsert (try_catch p h).
Proof.
  intros Hp Hh. induction Hp; cbn; try constructor; auto.
Qed.

Lemma no_upsert_lift {A} (r : result A) : no_upsert (lift r).
Proof. destruct r; constructor. Qed.

Lemma no_upsert_run {A} (p : prog A) (w : World) :
  no_upsert p -> w_history (snd (run p w)) = w_history w.
Proof.
  intros Hp. revert w. induction Hp; intros w; cbn [run]; auto;
    match goal with IH : _ |- _ => rewrite IH; try reflexivity end.
  unfold track_symbol. destruct (existsb _ _); reflexivity.
Qed.

Ltac solve_no_upsert :=
  repeat first
    [ apply no_upsert_bind | apply no_upsert_try | apply no_upsert_lift
    | progress intros | constructor
    | match goal with
      | |- no_upsert (match ?x with _ => _ end) => destruct x
      | |- no_upsert (if ?b then _ else _) => destruct b
      end ].

Lemma md_getCandles_no_upsert (symbol : string) (assetType : asset_type) (rangeStr : string) :
  no_upsert (md_getCandles symbol assetType rangeStr).
Proof.
  destruct assetType; unfold md_getCandles.
  - apply no_upsert_try.
    + unfold av_getCandles, getCacheConfig, fetch, setCacheConfig. solve_no_upsert.
    + intros e. unfold date_now, finnhub_getCandles. solve_no_upsert.
  - unfold binance_getCandles, getCacheConfig, fetch, setCacheConfig. solve_no_upsert.
Qed.

Lemma md_getQuote_no_upsert (symbol : string) (assetType : asset_type) :
  no_upsert (md_getQuote symbol assetType).
Proof.
  destruct assetType; unfold md_getQuote.
  - apply no_upsert_try.
    + unfold av_getQuote, getCacheConfig, fetch, setCacheConfig. solve_no_upsert.
    + intros e. unfold finnhub_getQuote. solve_no_upsert.
  - unfold binance_getQuote, binance_quote_rest, getCacheConfig, fetch, setCacheConfig.
    solve_no_upsert.
Qed.

Lemma num_gt0_elapsed (now t : Z) :
  num_gt0 (num_sub (num_sub (Fin (inject_Z now)) (Fin (inject_Z t))) (Fin 5000))
  = (now - t >? 5000).
Proof.
  cbn [num_sub num_gt0]. unfold Qle_bool, Qminus, Qplus, Qopp, inject_Z. cbn [Qnum Qden].
  rewrite Z.gtb_ltb.
  match goal with |- negb (Z.leb ?a ?b) = _ => destruct (Z.leb_spec a b) end;
    destruct (Z.ltb_spec 5000 (now - t)); cbn; lia.
Qed.

Lemma count_map_symbol (f : PriceHistoryRow -> PriceHistoryRow) (rows : list PriceHistoryRow)
  (x : string) :
  (forall r, ph_symbol (f r) = ph_symbol r) -> getCandleCount (map f rows) x = getCandleCount rows x.
Proof.
  intros Hf. unfold getCandleCount. induction rows as [|r rows IH]; [reflexivity|].
  cbn [map List.filter]. rewrite Hf. destruct (String.eqb (ph_symbol r) x); cbn; auto.
Qed.

Lemma prisma_upsert_count (rows rows' : list PriceHistoryRow) (symbol : string) (date : Z)
  (u : HistoryUpdate) (c : HistoryCreate) :
  hc_symbol c = symbol -> prisma_upsert rows symbol date u c = Ok rows' ->
  (getCandleCount rows' symbol <= S (getCandleCount rows symbol))%nat /\
  (forall other, other <> symbol -> getCandleCount rows' other = getCandleCount rows other).
Proof.
  intros Hc Hup. unfold prisma_upsert in Hup.
  destruct (existsb (row_key_is symbol date) rows).
  - repeat match type of Hup with
           | context [match ?x with Ok _ => _ | Err _ => _ end] => destruct x; [|discriminate]
           end.
    injection Hup as <-.
    split; [rewrite count_map_symbol; [lia|]|intros other _; apply count_map_symbol];
      intros r; destruct (row_key_is symbol date r); reflexivity.
  - repeat match type of Hup with
           | context [match ?x with Ok _ => _ | Err _ => _ end] => destruct x; [|discriminate]
           end.
    destruct (existsb _ rows); [discriminate|]. injection Hup as <-.
    unfold getCandleCount. split; [|intros other Hne];
      rewrite !List.filter_app, !length_app; cbn [List.filter ph_symbol]; rewrite Hc.
    + destruct (String.eqb symbol symbol); cbn; lia.
    + destruct (String.eqb_spec symbol other); [congruence|]. cbn. lia.
Qed.

Lemma backfill_loop_count (symbol : string) (assetType : asset_type) (candles : jsval)
  (idx : list nat) (k : Z) (w w' : World) (r : result Z) :
  run (backfill_loop symbol assetType candles idx k) w = (r, w') ->
  (forall n, r = Ok n ->
   Z.of_nat (getCandleCount (w_history w') symbol)
   <= Z.of_nat (getCandleCount (w_history w) symbol) + (n - k)) /\
  (forall other, other <> symbol ->
   getCandleCount (w_history w') other = getCandleCount (w_history w) other).
Proof.
  revert k w. induction idx as [|i idx IH]; intros k w Hrun.
  - cbn in Hrun. injection Hrun as <- <-. split; [intros n [= <-]; lia|reflexivity].
  - rewrite backfill_loop_cons in Hrun.
    destruct (candle_date candles i) as [date|e].
    2:{ injection Hrun as <- <-. split; [discriminate|reflexivity]. }
    pose proof (backfill_one_effect symbol assetType candles i date w) as Heff.
    destruct (run (backfill_one symbol assetType candles i date) w) as [[v|e] w1].
    + destruct Heff as (u & c & Hc & _ & Hup).
      destruct (prisma_upsert_count _ _ _ _ _ _ Hc Hup) as [H1 H2].
      destruct (IH _ _ Hrun) as [H3 H4]. split; [intros n Hn; specialize (H3 n Hn); lia|].
      intros other Hne. rewrite H4, H2 by exact Hne. reflexivity.
    + destruct (IH _ _ Hrun) as [H3 H4]. rewrite Heff in H3, H4. split; [exact H3|exact H4].
Qed.

Global Instance date_key_le_total : Total date_key_le.
Proof.
  intros a b. unfold date_key_le.
  destruct (date_get_time (JStr a)) as [|x], (date_get_time (JStr b)) as [|y]; auto.
  destruct (Qlt_le_dec x y) as [H|H].
  - left. apply Qle_bool_iff. apply Qlt_le_weak, H.
  - right. apply Qle_bool_iff, H.
Qed.

Lemma rmap_list_ok {A B} (f : A -> result B) (g : A -> B) (xs : list A) :
  (forall x, f x = Ok (g x)) -> rmap_list f xs = Ok (map g xs).
Proof.
  intros Hf. induction xs as [|x xs IH]; [reflexivity|].
  cbn [rmap_list map]. rewrite Hf, result_bind_Ok, IH. reflexivity.
Qed.

Lemma date_key_seconds_sorted (l : list string) :
  (forall d, In d l -> exists x, date_get_time (JStr d) = Fin x) ->
  Sorted date_key_le l -> Sorted Z.le (map date_key_second l).
Proof.
  intros Hv Hs. induction Hs as [|a l Hs IH Hhd]; cbn [map]; constructor.
  - apply IH. intros d Hd. apply Hv. right. exact Hd.
  - destruct Hhd as [|b l' Hab]; cbn [map]; constructor.
    destruct (Hv a (or_introl eq_refl)) as [x Hx].
    destruct (Hv b (or_intror (or_introl eq_refl))) as [y Hy].
    unfold date_key_le in Hab. rewrite Hx, Hy in Hab. apply Qle_bool_iff in Hab.
    unfold date_key_second. rewrite Hx, Hy. apply Qfloor_resp_le.
    apply Qmult_le_compat_r; [exact Hab|]. discriminate.
Qed.

Lemma upd_with_ext (S1 S2 : string -> bool) (t : list Asset) :
  (forall x, S1 x = S2 x) -> upd_with S1 t = upd_with S2 t.
Proof. intros H. unfold upd_with. apply map_ext. intros a. rewrite H. reflexivity. Qed.

Lemma upd_with_symbols (S : string -> bool) (t : list Asset) :
  map a_symbol (upd_with S t) = map a_symbol t.
Proof.
  unfold upd_with. rewrite map_map. apply map_ext. intros a. destruct (S _); reflexivity.
Qed.

Lemma asset_update_upd_with (S : string -> bool) (t0 : list Asset) (a : Asset) :
  In a t0 ->
  asset_update (upd_with S t0) (a_symbol a) "CRYPTO"
  = Ok (upd_with (fun x => S x || String.eqb x (a_symbol a)) t0).
Proof.
  intros Hin. unfold asset_update.
  replace (existsb (fun b => String.eqb (a_symbol b) (a_symbol a)) (upd_with S t0)) with true.
  - f_equal. unfold upd_with. rewrite map_map. apply map_ext. intros b.
    destruct (S (a_symbol b)); cbn; [destruct (String.eqb _ _); reflexivity|].
    destruct (String.eqb (a_symbol b) (a_symbol a)); reflexivity.
  - symmetry. apply existsb_exists.
    assert (Hs : In (a_symbol a) (map a_symbol (upd_with S t0))).
    { rewrite upd_with_symbols. apply in_map, Hin. }
    apply in_map_iff in Hs as [b [Hb Hbin]]. exists b. split; [exact Hbin|].
    rewrite Hb. apply String.eqb_refl.
Qed.

Lemma fix_loop_upd (t0 rest : list Asset) (S : string -> bool) (n : Z) :
  (forall a, In a rest -> In a t0) ->
  exists S', (forall x, S' x = S x || existsb (fun a => asset_needs_fix a
                                                         && String.eqb x (a_symbol a)) rest) /\
  fix_loop rest (upd_with S t0) n
  = Ok (upd_with S' t0, n + Z.of_nat (length (List.filter asset_needs_fix rest))).
Proof.
  revert S n. induction rest as [|a rest IH]; intros S n Hsub.
  - exists S. split; [intros x; cbn; symmetry; apply orb_false_r|]. cbn. f_equal. f_equal. lia.
  - cbn [fix_loop]. fold (asset_needs_fix a).
    assert (Ha : In a t0) by (apply Hsub; left; reflexivity).
    assert (Hr : forall b, In b rest -> In b t0) by (intros b Hb; apply Hsub; right; exact Hb).
    destruct (asset_needs_fix a) eqn:Hn.
    + rewrite (asset_update_upd_with S t0 a Ha), result_bind_Ok.
      destruct (IH (fun x => S x || String.eqb x (a_symbol a)) (n + 1) Hr) as [S' [HS' Hrun]].
      exists S'. split.
      * intros x. rewrite HS'. cbn [existsb]. rewrite Hn. cbn [andb].
        destruct (S x), (String.eqb x (a_symbol a)), (existsb _ rest); reflexivity.
      * rewrite Hrun. cbn [List.filter length]. rewrite Hn. cbn [length]. f_equal. f_equal. lia.
    + destruct (IH S n Hr) as [S' [HS' Hrun]]. exists S'. split.
      * intros x. rewrite HS'. cbn [existsb]. rewrite Hn. reflexivity.
      * rewrite Hrun. cbn [List.filter]. rewrite Hn. reflexivity.
Qed.

Lemma js_ends_with_needs_fix (a : Asset) :
  asset_needs_fix a = true -> js_ends_with (a_symbol a) "USDT" = true.
Proof. unfold asset_needs_fix. intros H. apply andb_prop in H. apply H. Qed.

Lemma fix_crypto_main_result (table : list Asset) :
  fix_crypto_main table
  = Ok (map asset_fixed table, Z.of_nat (length (List.filter asset_needs_fix table))).
Proof.
  unfold fix_crypto_main.
  assert (Hid : upd_with (fun _ => false) table = table).
  { unfold upd_with. rewrite <- (map_id table) at 2. apply map_ext. reflexivity. }
  rewrite <- Hid at 2.
  destruct (fix_loop_upd table table (fun _ => false) 0 (fun a H => H)) as [S' [HS' Hrun]].
  rewrite Hrun. f_equal. f_equal.
  unfold upd_with. apply map_ext_in. intros b Hb. rewrite HS'. cbn [orb].
  destruct (existsb _ table) eqn:Hq.
  - apply existsb_exists in Hq as [a [Ha Hfa]]. apply andb_prop in Hfa as [Hfix Heq].
    apply String.eqb_eq in Heq. unfold asset_fixed. rewrite Heq, (js_ends_with_needs_fix a Hfix).
    reflexivity.
  - unfold asset_fixed. destruct (js_ends_with (a_symbol b) "USDT") eqn:He; [|reflexivity].
    destruct (String.eqb_spec (a_type b) "CRYPTO") as [Ht|Ht].
    + destruct b as [sb tb]. cbn in Ht |- *. rewrite Ht. reflexivity.
    + exfalso. assert (Hx : existsb (fun a => asset_needs_fix a && String.eqb (a_symbol b) (a_symbol a)) table = true).
      { apply existsb_exists. exists b. split; [exact Hb|].
        unfold asset_needs_fix. rewrite He, String.eqb_refl.
        destruct (String.eqb_spec (a_type b) "CRYPTO"); [contradiction|reflexivity]. }
      congruence.
Qed.

(* ================================================================== *)
(** ** AlphaVantage without a fresh cache entry *)

(** X1: AlphaVantage [getQuote] without a fresh cache entry makes one fetch.
    A quote it builds is written through under [quote:av:<symbol>] for
    900 seconds, and a repeat call within those 900 seconds makes no call
    and answers the JSON round trip of that quote ([NaN] becomes [null]).
    Every error is rethrown and leaves the cache unwritten. *)
Theorem av_getQuote_network (w : World) (symbol : string) :
  cache_hit (view_entry (w_now w) <$> w_cache w !! ("quote:av:" +:+ symbol)) = None ->
  run (av_getQuote symbol) w =
  match av_quote_result symbol (w_fetch w (av_quote_url symbol)) with
  | Ok payload =>
      (Ok payload, write_through (av_quote_url symbol) ("quote:av:" +:+ symbol) payload 900
                     "ALPHAVANTAGE" w)
  | Err e => (Err e, add_call (CallFetch (av_quote_url symbol)) w)
  end /\
  (forall payload dt,
     av_quote_result symbol (w_fetch w (av_quote_url symbol)) = Ok payload ->
     0 <= dt <= 900000 ->
     let w1 := snd (run (av_getQuote symbol) w) in
     run (av_getQuote symbol) (advance_clock dt w1) = (Ok (json_norm payload), advance_clock dt w1)).
Proof.
  intros Hmiss. rewrite (av_getQuote_miss w symbol Hmiss). split; [reflexivity|].
  intros payload dt Hres Hdt w1. unfold w1. rewrite Hres. cbn [snd].
  unfold av_getQuote. rewrite run_mbind. unfold getCacheConfig. rewrite run_cache_get.
  cbn [run]. rewrite write_through_hit by lia. apply run_lift.
Qed.

Lemma av_getQuote_network_witness :
  av_quote_result "IBM" (w_fetch sample_network (av_quote_url "IBM")) = Ok ibm_av_quote /\
  run (av_getQuote "IBM") (advance_clock 600000 (snd (run (av_getQuote "IBM") sample_network)))
  = (Ok (json_norm ibm_av_quote),
     advance_clock 600000 (snd (run (av_getQuote "IBM") sample_network))).
Proof.
  assert (Hres : av_quote_result "IBM" (w_fetch sample_network (av_quote_url "IBM"))
                 = Ok ibm_av_quote) by (vm_compute; reflexivity).
  split; [exact Hres|].
  exact (proj2 (av_getQuote_network sample_network "IBM" eq_refl) ibm_av_quote 600000 Hres
           ltac:(lia)).
Defined.

(** X2: AlphaVantage [getCandles] without a fresh cache entry makes one fetch
    and does not read the HTTP status: a body that parses and holds a
    [Time Series] key is used whatever the status.  A series it builds is
    written through for 1800 seconds (intraday) or 86400 seconds (daily),
    and a repeat call within that time makes no call and answers the JSON
    round trip of the series.  Every error is rethrown and leaves the
    cache unwritten. *)
Theorem av_getCandles_network (w : World) (symbol : string) (isIntraday : bool) :
  let key := "candle:av:" +:+ symbol +:+ ":" +:+ (if isIntraday then "intraday" else "daily") in
  let ttl := if isIntraday then 1800 else 86400 in
  cache_hit (view_entry (w_now w) <$> w_cache w !! key) = None ->
  run (av_getCandles symbol isIntraday) w =
  match av_candles_result (w_fetch w (av_candles_url symbol isIntraday)) with
  | Ok payload =>
      (Ok payload, write_through (av_candles_url symbol isIntraday) key payload ttl
                     "ALPHAVANTAGE" w)
  | Err e => (Err e, add_call (CallFetch (av_candles_url symbol isIntraday)) w)
  end /\
  (forall payload dt,
     av_candles_result (w_fetch w (av_candles_url symbol isIntraday)) = Ok payload ->
     0 <= dt <= ttl * 1000 ->
     let w1 := snd (run (av_getCandles symbol isIntraday) w) in
     run (av_getCandles symbol isIntraday) (advance_clock dt w1)
     = (Ok (json_norm payload), advance_clock dt w1)).
Proof.
  intros key ttl Hmiss. rewrite (av_getCandles_miss w symbol isIntraday Hmiss).
  split; [reflexivity|].
  intros payload dt Hres Hdt w1. unfold w1. rewrite Hres. cbn [snd].
  unfold av_getCandles. rewrite run_mbind. unfold getCacheConfig. rewrite run_cache_get.
  cbn [run]. fold key. rewrite write_through_hit by exact Hdt. apply run_lift.
Qed.

Lemma av_getCandles_network_witness :
  av_candles_result (w_fetch sample_network (av_candles_url "IBM" false))
  = Ok (one_day_series "ALPHAVANTAGE") /\
  run (av_getCandles "IBM" false)
    (advance_clock 3600000 (snd (run (av_getCandles "IBM" false) sample_network)))
  = (Ok (json_norm (one_day_series "ALPHAVANTAGE")),
     advance_clock 3600000 (snd (run (av_getCandles "IBM" false) sample_network))).
Proof.
  assert (Hres : av_candles_result (w_fetch sample_network (av_candles_url "IBM" false))
                 = Ok (one_day_series "ALPHAVANTAGE")) by (vm_compute; reflexivity).
  split; [exact Hres|].
  exact (proj2 (av_getCandles_network sample_network "IBM" false eq_refl) _ 3600000 Hres
           ltac:(lia)).
Defined.

(** X3: AlphaVantage [getOverview] without a fresh cache entry makes one
    fetch and does not read the HTTP status.  A parsed body with at least
    one key and no truthy [Note] or [Information] is returned and written
    through for seven days, and a repeat call within seven days makes no
    call.  An empty object fails with [No overview found]; every error is
    rethrown and leaves the cache unwritten. *)
Theorem av_getOverview_network (w : World) (symbol : string) :
  cache_hit (view_entry (w_now w) <$> w_cache w !! ("overview:av:" +:+ symbol)) = None ->
  run (av_getOverview symbol) w =
  match av_overview_result (w_fetch w (av_overview_url symbol)) with
  | Ok data =>
      (Ok data, write_through (av_overview_url symbol) ("overview:av:" +:+ symbol) data
                  (86400 * 7) "ALPHAVANTAGE" w)
  | Err e => (Err e, add_call (CallFetch (av_overview_url symbol)) w)
  end /\
  av_overview_result (Ok {| res_ok := false; res_status := 500;
                            res_body := Serialized (JObj [("Symbol", JStr symbol)]) |})
  = Ok (JObj [("Symbol", JStr symbol)]) /\
  (forall res, res_body res = Serialized (JObj []) ->
     av_overview_result (Ok res) = Err "No overview found") /\
  (forall data dt,
     av_overview_result (w_fetch w (av_overview_url symbol)) = Ok data ->
     0 <= dt <= 604800000 ->
     let w1 := snd (run (av_getOverview symbol) w) in
     run (av_getOverview symbol) (advance_clock dt w1) = (Ok (json_norm data), advance_clock dt w1)).
Proof.
  intros Hmiss. rewrite (av_getOverview_miss w symbol Hmiss). split; [reflexivity|].
  split; [reflexivity|]. split; [intros res Hb; unfold av_overview_result; rewrite result_bind_Ok, Hb; reflexivity|].
  intros data dt Hres Hdt w1. unfold w1. rewrite Hres. cbn [snd].
  unfold av_getOverview. rewrite run_mbind. unfold getCacheConfig. rewrite run_cache_get.
  cbn [run]. rewrite write_through_hit by lia. apply run_lift.
Qed.

Lemma av_getOverview_network_witness :
  av_overview_result (w_fetch sample_network (av_overview_url "IBM"))
  = Ok (JObj [("Symbol", JStr "IBM"); ("PERatio", JStr "None")]) /\
  av_overview_result (Ok {| res_ok := false; res_status := 500;
                            res_body := Serialized (JObj [("Symbol", JStr "IBM")]) |})
  = Ok (JObj [("Symbol", JStr "IBM")]).
Proof.
  assert (Hres : av_overview_result (w_fetch sample_network (av_overview_url "IBM"))
                 = Ok (JObj [("Symbol", JStr "IBM"); ("PERatio", JStr "None")]))
    by (vm_compute; reflexivity).
  split; [exact Hres|].
  exact (proj1 (proj2 (av_getOverview_network sample_network "IBM" eq_refl))).
Defined.

(** X4: AlphaVantage candles come out in time order: when every key of the
    time series object is a [YYYY-MM-DD] date, the [t] array of the built
    series holds one epoch second per key, in non-decreasing order,
    whatever the order of the keys in the object. *)
Theorem av_candles_ascending (fs : list (string * jsval)) (payload : jsval) :
  (forall k, In k (map fst fs) -> exists x, date_get_time (JStr k) = Fin x) ->
  av_candles_payload (JObj fs) = Ok payload ->
  exists secs, js_get payload "t" = Ok (JArr (map js_num secs)) /\
               Sorted Z.le secs /\ length secs = length fs.
Proof.
  intros Hv Hp. unfold av_candles_payload in Hp.
  cbn [object_keys] in Hp. rewrite result_bind_Ok in Hp.
  set (dates := merge_sort date_key_le (map fst fs)) in Hp.
  assert (Hperm : Permutation dates (map fst fs)) by apply merge_sort_Permutation.
  assert (Hvd : forall d, In d dates -> exists x, date_get_time (JStr d) = Fin x).
  { intros d Hd. apply Hv. eapply Permutation_in; [exact Hperm|exact Hd]. }
  assert (Ht : js_array_map (JArr (map JStr dates))
                 (fun d => Ok (JNum (math_floor (num_div (date_get_time d) (Fin 1000)))))
               = Ok (JArr (map js_num (map date_key_second dates)))).
  { cbn [js_array_map].
    rewrite (rmap_list_ok _ (fun d => JNum (math_floor (num_div (date_get_time d) (Fin 1000)))))
      by reflexivity.
    rewrite result_bind_Ok. f_equal. f_equal. rewrite map_map, map_map.
    apply map_ext_in. intros d Hd. destruct (Hvd d Hd) as [x Hx].
    unfold date_key_second. rewrite Hx. reflexivity. }
  rewrite Ht, result_bind_Ok in Hp.
  repeat match type of Hp with
         | (?x ≫= _) = _ => destruct x; [rewrite result_bind_Ok in Hp|discriminate]
         end.
  injection Hp as <-.
  exists (map date_key_second dates). split; [reflexivity|]. split.
  - apply date_key_seconds_sorted; [exact Hvd|].
    apply Sorted_merge_sort. exact date_key_le_total.
  - rewrite length_map. rewrite (Permutation_length Hperm). apply length_map.
Qed.

Lemma av_candles_ascending_witness :
  av_candles_payload (JObj two_key_series)
  = Ok (JObj [("s", JStr "ok"); ("t", JArr [js_num 1699920000; js_num 1700006400]);
              ("o", JArr [js_num 10; js_num 11]); ("h", JArr [js_num 12; js_num 13]);
              ("l", JArr [js_num 9; js_num 10]); ("c", JArr [js_num 11; js_num 12]);
              ("v", JArr [js_num 1000; js_num 1100]); ("source", JStr "ALPHAVANTAGE")]) /\
  exists secs, Sorted Z.le secs /\ length secs = 2%nat.
Proof.
  assert (Hp : av_candles_payload (JObj two_key_series)
               = Ok (JObj [("s", JStr "ok"); ("t", JArr [js_num 1699920000; js_num 1700006400]);
                           ("o", JArr [js_num 10; js_num 11]); ("h", JArr [js_num 12; js_num 13]);
                           ("l", JArr [js_num 9; js_num 10]); ("c", JArr [js_num 11; js_num 12]);
                           ("v", JArr [js_num 1000; js_num 1100]);
                           ("source", JStr "ALPHAVANTAGE")]))
    by (vm_compute; reflexivity).
  split; [exact Hp|].
  assert (Hv : forall k, In k (map fst two_key_series) -> exists x, date_get_time (JStr k) = Fin x).
  { intros k Hk. cbn in Hk. destruct Hk as [<-|[<-|[]]]; eexists; reflexivity. }
  destruct (av_candles_ascending two_key_series _ Hv Hp) as [secs [_ [Hs Hl]]].
  exists secs. split; [exact Hs|exact Hl].
Defined.

(* ================================================================== *)
(** ** Binance past the cache *)

(** X5: Binance [getCandles] without a fresh cache entry makes one fetch; a
    series it builds is written through for 300 seconds, and any failure
    answers [{s: 'error'}] without writing the cache.  An omitted [limit]
    and a [limit] of 180 share the cache key and the URL, so after either
    call the other one, within 300 seconds, makes no call and answers the
    JSON round trip of the series. *)
Theorem binance_getCandles_network (w : World) (symbol : string) (interval limit0 : jsval) :
  cache_hit (view_entry (w_now w) <$> w_cache w !! binance_candle_key symbol interval limit0)
  = None ->
  run (binance_getCandles symbol interval limit0) w =
  match binance_klines_result (w_fetch w (binance_klines_url symbol interval limit0)) with
  | Ok payload =>
      (Ok payload, write_through (binance_klines_url symbol interval limit0)
                     (binance_candle_key symbol interval limit0) payload 300 "BINANCE_REST" w)
  | Err _ =>
      (Ok binance_candles_error,
       add_call (CallFetch (binance_klines_url symbol interval limit0)) w)
  end /\
  (forall limit1 payload dt,
     In limit0 [JUndef; js_num 180] -> In limit1 [JUndef; js_num 180] ->
     binance_klines_result (w_fetch w (binance_klines_url symbol interval limit0)) = Ok payload ->
     0 <= dt <= 300000 ->
     let w1 := snd (run (binance_getCandles symbol interval limit0) w) in
     run (binance_getCandles symbol interval limit1) (advance_clock dt w1)
     = (Ok (json_norm payload), advance_clock dt w1)).
Proof.
  intros Hmiss. rewrite (binance_getCandles_miss w _ _ _ Hmiss). split; [reflexivity|].
  intros limit1 payload dt H0 H1 Hres Hdt w1. unfold w1. rewrite Hres. cbn [snd].
  assert (Hk : binance_candle_key symbol interval limit1 = binance_candle_key symbol interval limit0).
  { destruct H0 as [<-|[<-|[]]], H1 as [<-|[<-|[]]]; reflexivity. }
  unfold binance_getCandles. rewrite run_mbind. unfold getCacheConfig. rewrite run_cache_get.
  cbn [run]. change ("candle:binance:" +:+ _) with (binance_candle_key symbol interval limit1).
  rewrite Hk, write_through_hit by lia. apply run_lift.
Qed.

Lemma binance_getCandles_network_witness :
  binance_klines_result (w_fetch sample_network (binance_klines_url "BTCUSDT" (JStr "1d") JUndef))
  = Ok (one_day_series "BINANCE_REST") /\
  run (binance_getCandles "BTCUSDT" (JStr "1d") (js_num 180))
    (advance_clock 120000 (snd (run (binance_getCandles "BTCUSDT" (JStr "1d") JUndef) sample_network)))
  = (Ok (json_norm (one_day_series "BINANCE_REST")),
     advance_clock 120000 (snd (run (binance_getCandles "BTCUSDT" (JStr "1d") JUndef) sample_network))).
Proof.
  assert (Hres : binance_klines_result
                   (w_fetch sample_network (binance_klines_url "BTCUSDT" (JStr "1d") JUndef))
                 = Ok (one_day_series "BINANCE_REST")) by (vm_compute; reflexivity).
  split; [exact Hres|].
  exact (proj2 (binance_getCandles_network sample_network "BTCUSDT" (JStr "1d") JUndef eq_refl)
           (js_num 180) _ 120000 (or_introl eq_refl) (or_intror (or_introl eq_refl)) Hres
           ltac:(lia)).
Defined.

(** X6: Binance [getQuote] with no hot entry and no fresh persisted entry,
    whose REST call yields a quote, writes that quote through under
    [quote:<symbol>] for 60 seconds.  A repeat call within those 60
    seconds, with still no hot entry, makes no outbound call and answers
    the JSON round trip of the quote. *)
Theorem binance_getQuote_write_through (w : World) (symbol : string) (payload : jsval) (dt : Z) :
  let key := "quote:" +:+ symbol in
  w_hot w !! key = None ->
  cache_hit (view_entry (w_now w) <$> w_cache w !! key) = None ->
  binance_rest_result (w_fetch w (binance_quote_url symbol)) = Ok payload ->
  0 <= dt <= 60000 ->
  let w1 := snd (run (binance_getQuote symbol) w) in
  run (binance_getQuote symbol) (advance_clock dt w1) = (Ok (json_norm payload), advance_clock dt w1).
Proof.
  intros key Hhot Hmiss Hres Hdt w1.
  destruct (track_symbol_fields symbol w) as [Hc [Hf [Hn [Hcl Hh]]]].
  assert (Hw1 : w1 = write_through (binance_quote_url symbol) key payload 60 "BINANCE_REST"
                       (track_symbol symbol w)).
  { unfold w1, binance_getQuote. rewrite run_mbind. cbn [run].
    rewrite run_mbind. cbn [run]. rewrite Hh. fold key. rewrite Hhot.
    pose proof (binance_quote_rest_miss (track_symbol symbol w) symbol) as Hrest.
    cbv zeta in Hrest. rewrite Hc, Hn, Hf in Hrest. fold key in Hrest.
    rewrite (Hrest Hmiss), Hres. reflexivity. }
  assert (Htr : In symbol (w_tracked (advance_clock dt w1))).
  { rewrite Hw1. exact (track_symbol_tracked symbol w). }
  unfold binance_getQuote. rewrite run_mbind. cbn [run].
  rewrite (track_symbol_present _ _ Htr). rewrite run_mbind. cbn [run].
  replace (w_hot (advance_clock dt w1) !! ("quote:" +:+ symbol)) with (@None jsval).
  2:{ rewrite Hw1. cbn. rewrite Hh. symmetry. exact Hhot. }
  unfold binance_quote_rest. rewrite run_mbind. unfold getCacheConfig. rewrite run_cache_get.
  cbn [run]. rewrite Hw1. fold key. rewrite write_through_hit by lia. apply run_lift.
Qed.

Lemma binance_getQuote_write_through_witness :
  binance_rest_result (w_fetch sample_network (binance_quote_url "BTCUSDT")) = Ok btc_rest_quote /\
  run (binance_getQuote "BTCUSDT")
    (advance_clock 30000 (snd (run (binance_getQuote "BTCUSDT") sample_network)))
  = (Ok (json_norm btc_rest_quote),
     advance_clock 30000 (snd (run (binance_getQuote "BTCUSDT") sample_network))).
Proof.
  assert (Hres : binance_rest_result (w_fetch sample_network (binance_quote_url "BTCUSDT"))
                 = Ok btc_rest_quote) by (vm_compute; reflexivity).
  split; [exact Hres|].
  exact (binance_getQuote_write_through sample_network "BTCUSDT" btc_rest_quote 30000
           eq_refl eq_refl Hres ltac:(lia)).
Defined.

(* ================================================================== *)
(** ** The stream handler *)

(** X7: A [24hrTicker] stream message sets the hot entry [quote:<s>] to the
    quote it builds.  The persisted cache is written (60 seconds, source
    [BINANCE_WS]) and [dbwrite:<s>] set to the current time only when more
    than 5000 ms have passed since the recorded last write (no record
    counts as time 0); otherwise the persisted cache is left as it was.
    The handler does not fail. *)
Theorem ws_on_message_ticker (w : World) (parsed sym payload : jsval) (t : Z) :
  js_get parsed "e" = Ok (JStr "24hrTicker") ->
  js_get parsed "s" = Ok sym ->
  binance_ws_payload parsed = Ok payload ->
  let q := "quote:" +:+ js_to_string sym in
  let d := "dbwrite:" +:+ js_to_string sym in
  (w_hot w !! d = Some (js_num t) \/ (w_hot w !! d = None /\ t = 0)) ->
  run (ws_on_message (Serialized parsed)) w =
  (Ok tt,
   if w_now w - t >? 5000
   then set_hot (<[d := js_num (w_now w)]> (<[q := payload]> (w_hot w)))
          (set_cache (<[q := {| ce_payloadJson := JSON_stringify payload;
                                ce_expiresAt := w_now w + 60 * 1000;
                                ce_source := "BINANCE_WS" |}]> (w_cache w)) w)
   else set_hot (<[q := payload]> (w_hot w)) w).
Proof.
  intros He Hs Hp q d Hlast.
  unfold ws_on_message. rewrite run_try_catch.
  rewrite run_mbind, run_lift. cbn [JSON_parse].
  rewrite run_mbind, run_lift, He. cbn [js_str_eq]. rewrite String.eqb_refl.
  rewrite run_mbind, run_lift, Hs, run_mbind, run_lift, Hp.
  rewrite run_mbind. cbn [run]. fold q.
  rewrite run_mbind. cbn [run]. fold d.
  assert (Hl : w_hot (set_hot (<[q:=payload]> (w_hot w)) w) !! d = w_hot w !! d).
  { cbn. apply lookup_insert_ne. apply not_eq_sym, dbwrite_not_quote. }
  rewrite Hl.
  assert (Hlw : to_number (match w_hot w !! d with
                           | Some v => if js_truthy v then v else js_num 0
                           | None => js_num 0 end) = Fin (inject_Z t)).
  { destruct Hlast as [-> | [-> ->]]; [|reflexivity].
    cbn [js_truthy js_num]. destruct (Qeq_bool (inject_Z t) 0) eqn:Hz; [|reflexivity].
    apply Qeq_bool_iff in Hz. unfold Qeq in Hz. cbn in Hz.
    assert (Ht : t = 0) by lia. subst t. reflexivity. }
  unfold date_now. cbn [run]. rewrite run_mbind. cbn [run].
  cbn [w_now set_hot]. rewrite Hlw, num_gt0_elapsed.
  destruct (w_now w - t >? 5000).
  - unfold setCacheConfig. rewrite run_mbind. cbn [run]. rewrite run_mbind. cbn [run].
    reflexivity.
  - reflexivity.
Qed.

Lemma ws_on_message_ticker_witness :
  binance_ws_payload ticker_message = Ok ticker_quote /\
  run (ws_on_message (Serialized ticker_message)) offline_world
  = (Ok tt, set_hot (<["dbwrite:BTCUSDT" := js_num 1700000000000]>
                       (<["quote:BTCUSDT" := ticker_quote]> (w_hot offline_world)))
              (set_cache (<["quote:BTCUSDT" := {| ce_payloadJson := JSON_stringify ticker_quote;
                                                  ce_expiresAt := 1700000000000 + 60 * 1000;
                                                  ce_source := "BINANCE_WS" |}]>
                            (w_cache offline_world)) offline_world)).
Proof.
  assert (Hp : binance_ws_payload ticker_message = Ok ticker_quote) by (vm_compute; reflexivity).
  split; [exact Hp|].
  exact (ws_on_message_ticker offline_world ticker_message (JStr "BTCUSDT") ticker_quote 0
           eq_refl eq_refl Hp (or_intror (conj eq_refl eq_refl))).
Defined.

(** X8: A stream message that is not JSON, or whose [e] field is not the
    string [24hrTicker], changes nothing, and the handler does not fail. *)
Theorem ws_on_message_ignored (data : json_text) (w : World) :
  (forall parsed e, data = Serialized parsed -> js_get parsed "e" = Ok e ->
   js_str_eq e "24hrTicker" = false) ->
  run (ws_on_message data) w = (Ok tt, w).
Proof.
  intros Hno. unfold ws_on_message. rewrite run_try_catch.
  rewrite run_mbind, run_lift. destruct data as [parsed|raw]; cbn [JSON_parse]; [|reflexivity].
  rewrite run_mbind, run_lift. destruct (js_get parsed "e") as [e|] eqn:He; [|reflexivity].
  rewrite (Hno parsed e eq_refl He). reflexivity.
Qed.

Lemma ws_on_message_ignored_witness :
  run (ws_on_message (Serialized (JObj [("e", JStr "kline")]))) offline_world
  = (Ok tt, offline_world).
Proof.
  apply ws_on_message_ignored. intros parsed e [= <-] He. vm_compute in He.
  injection He as <-. reflexivity.
Defined.

(* ================================================================== *)
(** ** Range tokens of the router *)

(** X10: For a STOCK symbol, every range token other than [1d], [1w], [1m] and
    [1y] (among them the [2y] of [backfillSymbol] and the [5d] of
    [appendLatestCandle]) is served exactly as [6m]: the daily
    AlphaVantage series, and when that call fails, the Finnhub daily
    candles of the last 180 days ([to] is the current epoch second and
    [from] is [to - 15552000]). *)
Theorem md_getCandles_stock_other_ranges (symbol rangeStr : string) (w w1 : World) (e : string) :
  ~ In rangeStr ["1d"; "1w"; "1m"; "1y"] ->
  md_getCandles symbol STOCK rangeStr = md_getCandles symbol STOCK "6m" /\
  (run (av_getCandles symbol false) w = (Err e, w1) ->
   let to := w_now w / 1000 in
   run (md_getCandles symbol STOCK rangeStr) w =
   (w_finnhub_candles w1 symbol "D" (to - 15552000) to,
    add_call (CallFinnhubCandles symbol "D" (to - 15552000) to) w1)).
Proof.
  intros Hr.
  assert (Heq : md_getCandles symbol STOCK rangeStr = md_getCandles symbol STOCK "6m").
  { unfold md_getCandles. cbn [existsb].
    destruct (String.eqb_spec rangeStr "1d") as [->|H1]; [cbn in Hr; tauto|].
    destruct (String.eqb_spec rangeStr "1w") as [->|H2]; [cbn in Hr; tauto|].
    destruct (String.eqb_spec rangeStr "1m") as [->|H3]; [cbn in Hr; tauto|].
    destruct (String.eqb_spec rangeStr "1y") as [->|H4]; [cbn in Hr; tauto|].
    reflexivity. }
  split; [exact Heq|]. intros Hav to. rewrite Heq.
  unfold md_getCandles. rewrite run_try_catch.
  change (existsb (String.eqb "6m") ["1d"; "1w"]) with false. rewrite Hav.
  unfold date_now. rewrite run_mbind. cbn [run].
  pose proof (run_now (av_getCandles symbol false) w) as Hn. rewrite Hav in Hn. cbn [snd] in Hn.
  rewrite Hn. fold to. cbn. unfold finnhub_getCandles. cbn [run]. apply run_lift.
Qed.

Lemma md_getCandles_stock_other_ranges_witness :
  run (av_getCandles "AAPL" false) offline_world
  = (Err "TypeError: fetch failed", add_call (CallFetch (av_candles_url "AAPL" false)) offline_world) /\
  run (md_getCandles "AAPL" STOCK "2y") offline_world
  = (Err "Finnhub unavailable",
     add_call (CallFinnhubCandles "AAPL" "D" (1700000000 - 15552000) 1700000000)
       (add_call (CallFetch (av_candles_url "AAPL" false)) offline_world)).
Proof.
  assert (Hav : run (av_getCandles "AAPL" false) offline_world
                = (Err "TypeError: fetch failed",
                   add_call (CallFetch (av_candles_url "AAPL" false)) offline_world))
    by (vm_compute; reflexivity).
  split; [exact Hav|].
  exact (proj2 (md_getCandles_stock_other_ranges "AAPL" "2y" offline_world _ _
                  ltac:(cbn; intuition discriminate)) Hav).
Defined.

(* ================================================================== *)
(** ** Writes of the price history *)

(** X12: The market-data router never writes the price history: [getQuote]
    and [getCandles] leave the table as it was, for every asset type,
    range token and world. *)
Theorem market_data_no_history_write (w : World) (symbol : string) (assetType : asset_type)
  (rangeStr : string) :
  w_history (snd (run (md_getQuote symbol assetType) w)) = w_history w /\
  w_history (snd (run (md_getCandles symbol assetType rangeStr) w)) = w_history w.
Proof.
  split; apply no_upsert_run; [apply md_getQuote_no_upsert|apply md_getCandles_no_upsert].
Qed.

(** X13: [appendLatestCandle] never fails.  It leaves the table as it was, or
    changes it by one successful upsert for its symbol whose update part
    does not set [assetType] (only a newly created row gets it). *)
Theorem appendLatestCandle_effect (w : World) (symbol : string) (assetType : asset_type) :
  let (r, w') := run (appendLatestCandle symbol assetType) w in
  r = Ok tt /\
  (w_history w' = w_history w \/
   exists date u c, hc_symbol c = symbol /\ hc_assetType c = assetType /\
     hu_assetType u = None /\ prisma_upsert (w_history w) symbol date u c = Ok (w_history w')).
Proof.
  unfold appendLatestCandle. rewrite run_try_catch, run_mbind.
  pose proof (no_upsert_run _ w (md_getCandles_no_upsert symbol assetType "5d")) as Hh.
  destruct (run (md_getCandles symbol assetType "5d") w) as [[candles|e] w1]; cbn [snd] in Hh.
  2:{ split; [reflexivity|left; exact Hh]. }
  rewrite <- Hh. clear Hh.
  crunch; try (split; [reflexivity|left; reflexivity]).
  destruct (w_db_faults w1) as [|[] fs];
    [| split; [reflexivity|left; reflexivity] |];
    (destruct (prisma_upsert _ _ _ _ _) as [rows|e] eqn:Hup; cbn [run lift];
     [split; [reflexivity|right; do 3 eexists; split; [|split; [|split; [|exact Hup]]]; reflexivity]
     | split; [reflexivity|left; reflexivity]]).
Qed.

(** X14: When [backfillSymbol] answers a count [n], the number of stored rows
    of the symbol ([getCandleCount]) has grown by at most [n]; whatever
    the outcome, every other symbol keeps its number of rows. *)
Theorem backfillSymbol_count (w : World) (symbol : string) (assetType : asset_type) :
  let (r, w') := run (backfillSymbol symbol assetType) w in
  (forall n, r = Ok n ->
   Z.of_nat (getCandleCount (w_history w') symbol)
   <= Z.of_nat (getCandleCount (w_history w) symbol) + n) /\
  (forall other, other <> symbol ->
   getCandleCount (w_history w') other = getCandleCount (w_history w) other).
Proof.
  unfold backfillSymbol. rewrite run_mbind.
  pose proof (no_upsert_run _ w (md_getCandles_no_upsert symbol assetType "2y")) as Hh.
  destruct (run (md_getCandles symbol assetType "2y") w) as [[candles|e] w1]; cbn [snd] in Hh.
  2:{ rewrite Hh. split; [discriminate|reflexivity]. }
  rewrite <- Hh. clear Hh.
  rewrite run_mbind, run_lift. destruct (no_candle_data candles) as [[]|e]; cbn [run].
  - split; [intros n [= <-]; lia|reflexivity].
  - rewrite run_mbind, run_lift. destruct (js_get candles "t") as [t|e]; cbn [run];
      [|split; [discriminate|reflexivity]].
    rewrite run_mbind, run_lift. destruct (js_get t "length") as [tl|e]; cbn [run];
      [|split; [discriminate|reflexivity]].
    destruct (run (backfill_loop _ _ _ _ _) w1) as [r w'] eqn:Hrun.
    destruct (backfill_loop_count _ _ _ _ _ _ _ _ Hrun) as [H1 H2].
    split; [intros n Hn; specialize (H1 n Hn); lia|exact H2].
  - split; [discriminate|reflexivity].
Qed.

Lemma backfillSymbol_count_witness :
  fst (run (backfillSymbol "AAPL" STOCK) two_day_world) = Ok 2 /\
  (Z.of_nat (getCandleCount (w_history (snd (run (backfillSymbol "AAPL" STOCK) two_day_world))) "AAPL")
   <= Z.of_nat (getCandleCount (w_history two_day_world) "AAPL") + 2).
Proof.
  assert (Hr : fst (run (backfillSymbol "AAPL" STOCK) two_day_world) = Ok 2)
    by (vm_compute; reflexivity).
  split; [exact Hr|].
  pose proof (backfillSymbol_count two_day_world "AAPL" STOCK) as H.
  destruct (run (backfillSymbol "AAPL" STOCK) two_day_world) as [r w'].
  exact (proj1 H 2 Hr).
Defined.

(* ================================================================== *)
(** ** The maintenance script *)

(** X15: The maintenance script sets the type [CRYPTO] on every asset whose
    symbol ends with [USDT], leaves every other asset as it was, and
    reports the number of assets whose type it changed.  A second run
    changes nothing and reports 0. *)
Theorem fix_crypto_assets_spec (table : list Asset) :
  fix_crypto_main table
  = Ok (map asset_fixed table, Z.of_nat (length (List.filter asset_needs_fix table))) /\
  fix_crypto_main (map asset_fixed table) = Ok (map asset_fixed table, 0).
Proof.
  split; [apply fix_crypto_main_result|]. rewrite fix_crypto_main_result.
  f_equal. f_equal.
  - rewrite map_map. apply map_ext. intros a. unfold asset_fixed.
    destruct (js_ends_with (a_symbol a) "USDT") eqn:He; [|rewrite He; reflexivity].
    cbn. rewrite He. reflexivity.
  - induction table as [|a t IH]; [reflexivity|]. cbn [map List.filter].
    assert (Ha : asset_needs_fix (asset_fixed a) = false).
    { unfold asset_needs_fix, asset_fixed.
      destruct (js_ends_with (a_symbol a) "USDT") eqn:He; cbn; [rewrite He; reflexivity|].
      rewrite He. reflexivity. }
    rewrite Ha. exact IH.
Qed.
